(** * Energy Tracker: leaderboard query and statistics aggregation

    A shallow embedding of the calculation code of the Energy Tracker
    server (Express controllers) and of the browser utilities they share:

    - [ApplianceTypeModel], [RegionPowerModel]: the two reference tables
      (src/models/ApplianceTypeModel.mjs, src/models/RegionPowerModel.mjs);
    - [UtilsController]: [getAppliancePower] and [getLocationPower]
      (src/public/scripts/UtilsController.mjs);
    - [StatisticsController]: [getAggregatedStats]
      (src/controllers/StatisticsController.mjs);
    - [LeaderboardController]: [calculateSortValues], [compareEntries] and
      [getEntries] (src/controllers/LeaderboardController.mjs).

    Numbers.  A JavaScript number is modelled by an exact rational ([Qc]);
    the rounding, overflow and infinities of IEEE doubles are outside the
    model.  [NaN] exists only where the code can meet it: as the value of a
    raw record field and as the result of [Number(...)].

    Objects used as dictionaries ([totalRegionPower], [totalPowerSources],
    [totalAppliances]) are [gmap string number]; [Object.entries] is
    [map_to_list], whose order is not the insertion order of the engine
    (no statement below depends on it).  Inherited properties of
    [Object.prototype] are not modelled. *)

From stdpp Require Import gmap strings list fin_maps numbers sorting.
From Stdlib Require Import QArith Qcanon Qround Field Ascii.

Local Open Scope Qc_scope.
Set Warnings "-register-all".

(** ** Numbers *)

Abbreviation number := Qc.

Definition numZ (z : Z) : number := Qc_of_Z z.

(** A raw field of an uploaded record, as far as [Number(...)] looks at it. *)
Inductive JsVal :=
| JUndefined
| JNull
| JBool (b : bool)
| JNaN
| JNumber (x : number).

(** [Number(v)]; [None] stands for [NaN]. *)
Definition Number (v : JsVal) : option number :=
  match v with
  | JUndefined => None
  | JNull => Some 0
  | JBool true => Some 1
  | JBool false => Some 0
  | JNaN => None
  | JNumber x => Some x
  end.

(** [n || 0] on a number: [NaN] and [0] are the falsy numbers. *)
Definition orZero (n : option number) : number :=
  match n with
  | Some x => if decide (x = 0) then 0 else x
  | None => 0
  end.

(** Sum of a list of numbers. *)
Definition sumQc (l : list number) : number := foldr Qcplus 0 l.

(** ** Strings *)

Definition isUpper (c : ascii) : bool :=
  (65 <=? nat_of_ascii c)%nat && (nat_of_ascii c <=? 90)%nat.

Definition toLowerChar (c : ascii) : ascii :=
  if isUpper c then ascii_of_nat (nat_of_ascii c + 32) else c.

(** [s.toLowerCase()], on ASCII letters. *)
Fixpoint toLowerCase (s : string) : string :=
  match s with
  | EmptyString => EmptyString
  | String c r => String (toLowerChar c) (toLowerCase r)
  end.


(** [v || d] on an optional string: [undefined] and the empty string are
    falsy. *)
Definition orString (v : option string) (d : string) : string :=
  match v with
  | Some s => if decide (s = "") then d else s
  | None => d
  end.

(** ** Reference tables *)

Module ApplianceTypeModel.

Record t := { name : string; watts : number }.

Definition types : list t :=
  [ {| name := "Refrigerator"; watts := numZ 100 |};
    {| name := "Air Conditioner"; watts := numZ 350 |};
    {| name := "Heater"; watts := numZ 1500 |};
    {| name := "Washing Machine"; watts := numZ 500 |};
    {| name := "Dryer"; watts := numZ 3000 |};
    {| name := "Dishwasher"; watts := numZ 1800 |};
    {| name := "Oven"; watts := numZ 2150 |};
    {| name := "Microwave"; watts := numZ 1000 |};
    {| name := "Toaster"; watts := numZ 800 |};
    {| name := "Coffee Maker"; watts := numZ 900 |};
    {| name := "Television"; watts := numZ 150 |};
    {| name := "Computer"; watts := numZ 200 |};
    {| name := "Lamp"; watts := numZ 60 |} ].

End ApplianceTypeModel.

Module RegionPowerModel.

(** [powerSources] is an object literal; its entries are kept in the
    order they are written. *)
Record t := { name : string; powerSources : list (string * number) }.

Definition mix (wind solar gas coal : Z) : list (string * number) :=
  [ ("wind", numZ wind); ("solar", numZ solar);
    ("gas", numZ gas); ("coal", numZ coal) ].

Definition data : list t :=
  [ {| name := "NSW"; powerSources := mix 12 15 25 48 |};
    {| name := "VIC"; powerSources := mix 20 22 30 28 |};
    {| name := "QLD"; powerSources := mix 10 20 25 45 |};
    {| name := "WA"; powerSources := mix 15 20 35 30 |};
    {| name := "SA"; powerSources := mix 40 30 20 10 |};
    {| name := "TAS"; powerSources := mix 60 20 10 10 |};
    {| name := "ACT"; powerSources := mix 30 40 20 10 |};
    {| name := "NT"; powerSources := mix 20 30 40 10 |} ].

End RegionPowerModel.

(** ** Records *)

Module ApplianceModel.

(** [type] is [None] when the appliance has no type object; a type whose
    name is missing is a type with the empty name (both are falsy). *)
Record t := {
  type : option ApplianceTypeModel.t;
  hours : JsVal;
  quantity : JsVal
}.

End ApplianceModel.

Module LeaderboardItemModel.

(** [region] is [None] when the field is absent; [appliances] is [None]
    when the field is absent or is not an array. *)
Record t := {
  address : string;
  region : option string;
  appliances : option (list ApplianceModel.t);
  publicId : string;
  privateId : string
}.

End LeaderboardItemModel.

(** ** UtilsController (src/public/scripts/UtilsController.mjs) *)

Module UtilsController.
Section Utils.

(** [await ApplianceTypeModel.types]: the catalog the browser works with. *)
Variable applianceTypes : list ApplianceTypeModel.t.

Definition findType (n : string) : option ApplianceTypeModel.t :=
  List.find (λ ty, bool_decide (ApplianceTypeModel.name ty = n))
            applianceTypes.

(** The catalog holds numbers in [watts], so [typeof appType.watts] is
    ["number"] for every catalog entry. *)
Definition getAppliancePower (appliance : option ApplianceModel.t) : number :=
  match appliance with
  | None => 0
  | Some a =>
    match ApplianceModel.type a with
    | None => 0
    | Some ty =>
      if decide (ApplianceTypeModel.name ty = "") then 0
      else
        match findType (ApplianceTypeModel.name ty) with
        | None => 0
        | Some appType =>
          let hours := orZero (Number (ApplianceModel.hours a)) in
          let quantity := orZero (Number (ApplianceModel.quantity a)) in
          ApplianceTypeModel.watts appType * hours * quantity
        end
    end
  end.

(** The elements of an appliance array are objects, so the [if (app)]
    guard of the loop holds for each of them. *)
Definition getLocationPower (appliances : option (list ApplianceModel.t))
  : number :=
  match appliances with
  | None => 0
  | Some apps =>
    foldl (λ sum app, sum + getAppliancePower (Some app)) 0 apps
  end.

(** The formula of the specification, word for word: the catalog wattage
    times the hours and the quantity, each clamped at zero from below. *)
Definition clamp0 (v : JsVal) : number :=
  match Number v with
  | Some x => if decide (0 ≤ x) then x else 0
  | None => 0
  end.

Definition specAppliancePower (appliance : option ApplianceModel.t) : number :=
  match appliance with
  | None => 0
  | Some a =>
    match ApplianceModel.type a with
    | None => 0
    | Some ty =>
      match findType (ApplianceTypeModel.name ty) with
      | None => 0
      | Some appType =>
        ApplianceTypeModel.watts appType
        * clamp0 (ApplianceModel.hours a)
        * clamp0 (ApplianceModel.quantity a)
      end
    end
  end.

End Utils.
End UtilsController.

(** ** Dictionaries of running totals *)

(** [if (!totals[key]) { totals[key] = 0; }  totals[key] += x;]
    A bucket is (re)initialised when it is absent or holds a falsy number,
    then the amount is added to it. *)
Definition initBucket (key : string) (totals : gmap string number)
  : gmap string number :=
  match totals !! key with
  | Some v => if decide (v = 0) then <[key := 0]> totals else totals
  | None => <[key := 0]> totals
  end.

Definition addToBucket (key : string) (x : number)
    (totals : gmap string number) : gmap string number :=
  let totals := initBucket key totals in
  <[key := default 0 (totals !! key) + x]> totals.



(** ** StatisticsController (src/controllers/StatisticsController.mjs) *)

Module StatisticsController.


(** The three accumulators of the loop over the entries. *)
Record Totals := {
  totalRegionPower : gmap string number;
  totalAppliances : gmap string number;
  grandTotalPower : number
}.



Section Server.

(** The server imports its own [UtilsController] from [../models/]; the two
    functions it calls there, synchronously, are taken as they are used. *)
Variable getLocationPower : option (list ApplianceModel.t) → number.
Variable getAppliancePower : option ApplianceModel.t → number.

Definition regionNameOf (entry : LeaderboardItemModel.t) : string :=
  orString (LeaderboardItemModel.region entry) "Unknown".

Definition appTypeNameOf (app : ApplianceModel.t) : string :=
  orString (ApplianceTypeModel.name <$> ApplianceModel.type app) "Unknown".

(** The body of [entries.forEach((entry) => ...)]. *)
Definition addEntry (acc : Totals) (entry : LeaderboardItemModel.t) : Totals :=
  let locationPower :=
    getLocationPower (LeaderboardItemModel.appliances entry) in
  let regionName := regionNameOf entry in
  {| grandTotalPower := grandTotalPower acc + locationPower;
     totalRegionPower :=
       addToBucket regionName locationPower (totalRegionPower acc);
     totalAppliances :=
       foldl (λ apps app,
                addToBucket (appTypeNameOf app)
                            (getAppliancePower (Some app)) apps)
             (totalAppliances acc)
             (default [] (LeaderboardItemModel.appliances entry)) |}.

Definition aggregate (entries : list LeaderboardItemModel.t) : Totals :=
  foldl addEntry
        {| totalRegionPower := ∅; totalAppliances := ∅;
           grandTotalPower := 0 |}
        entries.


End Server.
End StatisticsController.

(** ** Values handed to [res.json] *)

Inductive Json :=
| JsonRaw (v : JsVal)
| JsonString (s : string)
| JsonArray (items : list Json)
| JsonObject (fields : list (string * Json)).

(** The property names of an object literal, in the order written. *)
Definition keysOf (j : Json) : list string :=
  match j with
  | JsonObject fields => fields.*1
  | _ => []
  end.

(** ** [Array.prototype.sort] *)

(** The host's sort is stable and, for a consistent comparator, leaves [a]
    before [b] only if [cmp a b <= 0]; a stable insertion sort does the same. *)
Fixpoint insertSorted {A} (cmp : A → A → number) (x : A) (l : list A) : list A :=
  match l with
  | [] => [x]
  | y :: r =>
    if decide (0 < cmp x y) then y :: insertSorted cmp x r else x :: y :: r
  end.

Definition Array_sort {A} (cmp : A → A → number) (l : list A) : list A :=
  foldr (insertSorted cmp) [] l.

(** [l.slice(start, end)] for [0 <= start <= end]. *)
Definition Array_slice {A} (startIndex endIndex : Z) (l : list A) : list A :=
  take (Z.to_nat (endIndex - startIndex)) (drop (Z.to_nat startIndex) l).

(** [Math.ceil(n / d)] *)
Definition Math_ceil_div (n d : Z) : Z :=
  Qceiling (inject_Z n / inject_Z d)%Q.

(** ** LeaderboardController (src/controllers/LeaderboardController.mjs) *)

Module LeaderboardController.

Definition PAGE_SIZE : Z := 16.

(** What [calculateSortValues] returns. *)
Record SortValues := { sortValue : number; totalPower : number }.

(** [{ ...entry, sortValue, totalPower }] *)
Record Scored := { entry : LeaderboardItemModel.t; values : SortValues }.

(** [req.query]: [page] is what [parseInt] reads from the parameter
    ([None] for [NaN]); the other parameters are [None] when absent. *)
Record Query := {
  page : option Z;
  appType : option string;
  powerSource : option string;
  region : option string;
  sortOrder : option string
}.

Record Page := {
  entries : list Json;
  currentPage : Z;
  totalPages : Z;
  totalEntries : Z
}.

(** The handler answers with a page, with status 500 when the store is
    not available, or is left by a [TypeError]. *)
Inductive Response :=
| Ok200 (body : Page)
| Error500
| TypeError.

(** [sources[key]] on a table row. *)
Definition lookupSource (sources : list (string * number)) (key : string)
  : option number :=
  snd <$> List.find (λ kv, bool_decide (kv.1 = key)) sources.

Definition compareEntries (a b : SortValues)
    (sortOrder powerSourceFilter : string) : number :=
  let sortValueDiff :=
    if decide (sortOrder = "HIGH") then sortValue b - sortValue a
    else sortValue a - sortValue b in
  if decide (sortValueDiff ≠ 0) then sortValueDiff
  else if decide (powerSourceFilter ≠ "ANY") then
    (if decide (sortOrder = "HIGH") then totalPower b - totalPower a
     else totalPower a - totalPower b)
  else 0.

(** [parseInt(req.query.page) || 1] *)
Definition pageOf (p : option Z) : Z :=
  match p with
  | Some n => if decide (n = 0%Z) then 1%Z else n
  | None => 1%Z
  end.

(** [Math.ceil(totalEntries / PAGE_SIZE) || 1] *)
Definition totalPagesOf (totalEntries : Z) : Z :=
  let pages := Math_ceil_div totalEntries PAGE_SIZE in
  if decide (pages = 0%Z) then 1%Z else pages.

(** [Math.max(1, Math.min(page, totalPages))] *)
Definition safePageOf (page totalPages : Z) : Z :=
  Z.max 1 (Z.min page totalPages).

(** The predicate of [LeaderboardItemModel.data.filter]. *)
Definition keepEntry (regionFilter appTypeFilter : string)
    (entry : LeaderboardItemModel.t) : bool :=
  if decide (regionFilter ≠ "ALL"
             ∧ LeaderboardItemModel.region entry ≠ Some regionFilter)
  then false
  else if decide (appTypeFilter ≠ "ANY") then
    match LeaderboardItemModel.appliances entry with
    | None => false
    | Some apps =>
      existsb (λ app,
                 bool_decide (ApplianceTypeModel.name
                                <$> ApplianceModel.type app
                              = Some appTypeFilter))
              apps
    end
  else true.

Definition typeJson (ty : option ApplianceTypeModel.t) : Json :=
  match ty with
  | Some ty =>
    JsonObject [ ("name", JsonString (ApplianceTypeModel.name ty));
                 ("watts", JsonRaw (JNumber (ApplianceTypeModel.watts ty))) ]
  | None => JsonRaw JUndefined
  end.

Definition applianceJson (app : ApplianceModel.t) : Json :=
  JsonObject [ ("type", typeJson (ApplianceModel.type app));
               ("hours", JsonRaw (ApplianceModel.hours app));
               ("quantity", JsonRaw (ApplianceModel.quantity app)) ].

(** The projection of one page entry; [entry.appliances.map] throws when
    the entry has no appliance array. *)
Definition sanitize (e : Scored) : option Json :=
  match LeaderboardItemModel.appliances (entry e) with
  | None => None
  | Some apps =>
    Some (JsonObject
      [ ("address", JsonString (LeaderboardItemModel.address (entry e)));
        ("region",
         match LeaderboardItemModel.region (entry e) with
         | Some r => JsonString r
         | None => JsonRaw JUndefined
         end);
        ("appliances", JsonArray (applianceJson <$> apps));
        ("publicId", JsonString (LeaderboardItemModel.publicId (entry e))) ])
  end.

Section Server.

(** The server-side [UtilsController.getLocationPower], as in
    [StatisticsController]. *)
Variable getLocationPower : option (list ApplianceModel.t) → number.

Definition calculateSortValues (entry : LeaderboardItemModel.t)
    (powerSourceFilter : string) : SortValues :=
  let totalPower :=
    getLocationPower (LeaderboardItemModel.appliances entry) in
  let region :=
    List.find (λ r, bool_decide (Some (RegionPowerModel.name r)
                                 = LeaderboardItemModel.region entry))
              RegionPowerModel.data in
  let sources := default [] (RegionPowerModel.powerSources <$> region) in
  let sortValue :=
    if decide (powerSourceFilter = "GREEN") then
      (orZero (lookupSource sources "solar")
       + orZero (lookupSource sources "wind")
       + orZero (lookupSource sources "hydro")) / numZ 100
    else if decide (powerSourceFilter ≠ "ANY") then
      orZero (lookupSource sources (toLowerCase powerSourceFilter)) / numZ 100
    else totalPower in
  {| sortValue := sortValue; totalPower := totalPower |}.

Definition score (powerSourceFilter : string) (e : LeaderboardItemModel.t)
  : Scored :=
  {| entry := e; values := calculateSortValues e powerSourceFilter |}.

(** The entries after filter, score and sort. *)
Definition rankedEntries (all : list LeaderboardItemModel.t)
    (appTypeFilter powerSourceFilter regionFilter sortOrder : string)
  : list Scored :=
  let filteredEntries := List.filter (keepEntry regionFilter appTypeFilter) all in
  let entriesWithSortValue := score powerSourceFilter <$> filteredEntries in
  Array_sort (λ a b, compareEntries (values a) (values b)
                                    sortOrder powerSourceFilter)
             entriesWithSortValue.

(** [data] is [LeaderboardItemModel.data], [None] when it is not set. *)
Definition getEntries (data : option (list LeaderboardItemModel.t))
    (query : Query) : Response :=
  let page := pageOf (page query) in
  let appTypeFilter := orString (appType query) "ANY" in
  let powerSourceFilter := orString (powerSource query) "GREEN" in
  let regionFilter := orString (region query) "ALL" in
  let sortOrder := orString (sortOrder query) "HIGH" in
  match data with
  | None => Error500
  | Some all =>
    let entriesWithSortValue :=
      rankedEntries all appTypeFilter powerSourceFilter regionFilter
                    sortOrder in
    let totalEntries := Z.of_nat (length entriesWithSortValue) in
    let totalPages := totalPagesOf totalEntries in
    let safePage := safePageOf page totalPages in
    let startIndex := ((safePage - 1) * PAGE_SIZE)%Z in
    let endIndex := (startIndex + PAGE_SIZE)%Z in
    let entriesForPage :=
      Array_slice startIndex endIndex entriesWithSortValue in
    match mapM sanitize entriesForPage with
    | None => TypeError
    | Some sanitizedEntries =>
      Ok200 {| entries := sanitizedEntries;
               currentPage := safePage;
               totalPages := totalPages;
               totalEntries := totalEntries |}
    end
  end.

End Server.
End LeaderboardController.

(** ** ServerDataModel (src/models/ServerDataModel.mjs) *)

(** The store is the static array [data]; an operation that writes it
    returns the array it leaves behind.  [init] relinks the prototype of a
    record and keeps its fields. *)
Module ServerDataModel.
Section Store.

Context {A : Type}.

Definition init (entry : A) : A := entry.

Definition getMany (predicate : A → bool) (data : list A) : list A :=
  init <$> List.filter predicate data.

(** [undefined] is [None]. *)
Definition get (predicate : A → bool) (data : list A) : option A :=
  init <$> List.find predicate data.

(** [data.findIndex(predicate)]; [-1] is [None]. *)
Fixpoint findIndex (predicate : A → bool) (data : list A) : option nat :=
  match data with
  | [] => None
  | x :: rest =>
    if predicate x then Some 0%nat else S <$> findIndex predicate rest
  end.

Definition update (predicate : A → bool) (updatedEntryData : A)
    (data : list A) : list A * bool :=
  match findIndex predicate data with
  | Some index => (<[index := init updatedEntryData]> data, true)
  | None => (data, false)
  end.

Definition insert (entryData : A) (data : list A) : list A :=
  data ++ [init entryData].

Definition delete (predicate : A → bool) (data : list A) : list A * Z :=
  let initialLength := Z.of_nat (length data) in
  let data := List.filter (λ entry, negb (predicate entry)) data in
  (data, (initialLength - Z.of_nat (length data))%Z).

End Store.
End ServerDataModel.

(** ** LeaderboardController, the handlers that write the store *)

(** [LeaderboardItemModel] keeps the shared entries with the operations of
    [ServerDataModel], its base store. *)
Module LeaderboardStore.

(** What [sendResponse] sends. *)
Record Reply := { status : Z; message : string }.

Definition sendResponse (success : bool) (successMsg failureMsg : string)
  : Reply :=
  {| status := if success then 200 else 400;
     message := if success then successMsg else failureMsg |}.

(** [body] is [req.body], [None] when the request has none. *)
Definition uploadNewEntry (body : option LeaderboardItemModel.t)
    (data : list LeaderboardItemModel.t)
  : list LeaderboardItemModel.t * Reply :=
  let '(data, success) :=
    match body with
    | None => (data, false)
    | Some entry => (ServerDataModel.insert entry data, true)
    end in
  (data, sendResponse success "Entry uploaded successfully."
                      "Failed to upload entry.").

(** [body] is [req.body] and, inside it, its [id]; an absent or empty [id]
    is falsy. *)
Definition deleteEntry (body : option (option string))
    (data : list LeaderboardItemModel.t)
  : list LeaderboardItemModel.t * Reply :=
  match body with
  | Some (Some id) =>
    if decide (id = "") then
      (data, sendResponse false "" "Missing entry ID for deletion.")
    else
      let '(data, deleted) :=
        ServerDataModel.delete
          (λ entry, bool_decide (LeaderboardItemModel.privateId entry = id))
          data in
      (data, sendResponse (bool_decide (0 < deleted)%Z)
                          "Entry deleted successfully."
                          "Failed to delete entry (not found?).")
  | _ => (data, sendResponse false "" "Missing entry ID for deletion.")
  end.

End LeaderboardStore.

(** ** LeaderboardController.loadLeaderboard *)

Module LeaderboardView.

(** The context handed to [leaderboard.ejs]. *)
Record View := {
  locations : list LeaderboardController.Scored;
  appTypes : list ApplianceTypeModel.t;
  currentPage : Z;
  totalPages : Z;
  pageSize : Z
}.

Section Server.

Variable getLocationPower : option (list ApplianceModel.t) → number.

(** [page] is what [parseInt] reads from [req.query.page]. *)
Definition loadLeaderboard (data : list LeaderboardItemModel.t)
    (page : option Z) : View :=
  let page := LeaderboardController.pageOf page in
  let initialSortOrder := "HIGH" in
  let initialPowerSource := "GREEN" in
  let entriesWithSortValues :=
    LeaderboardController.score getLocationPower initialPowerSource <$> data in
  let entriesWithSortValues :=
    Array_sort (λ a b, LeaderboardController.compareEntries
                         (LeaderboardController.values a)
                         (LeaderboardController.values b)
                         initialSortOrder initialPowerSource)
               entriesWithSortValues in
  let totalEntries := Z.of_nat (length entriesWithSortValues) in
  let totalPages :=
    Math_ceil_div totalEntries LeaderboardController.PAGE_SIZE in
  let safePage :=
    Z.max 1 (Z.min page (if decide (totalPages = 0%Z) then 1%Z else totalPages)) in
  let startIndex := ((safePage - 1) * LeaderboardController.PAGE_SIZE)%Z in
  let endIndex := (startIndex + LeaderboardController.PAGE_SIZE)%Z in
  let locationsForPage :=
    Array_slice startIndex endIndex entriesWithSortValues in
  {| locations := locationsForPage;
     appTypes := ApplianceTypeModel.types;
     currentPage := safePage;
     totalPages := totalPages;
     pageSize := LeaderboardController.PAGE_SIZE |}.

End Server.
End LeaderboardView.

(** ** ApplianceModel and LocationEditController, adding an appliance
    (src/public/scripts/ApplianceModel.mjs, LocationEditController.mjs) *)

(** Whether a raw value is truthy. *)
Definition truthy (v : JsVal) : bool :=
  match v with
  | JUndefined | JNull | JNaN => false
  | JBool b => b
  | JNumber x => bool_decide (x ≠ 0)
  end.

(** [n || 1] on a number. *)
Definition orOne (n : option number) : number :=
  match n with
  | Some x => if decide (x = 0) then 1 else x
  | None => 1
  end.

Module LocationEditController.

(** [new ApplianceModel(type, hours, quantity)], for a type that is a catalog
    instance. *)
Definition newAppliance (type : option ApplianceTypeModel.t)
    (hours quantity : JsVal) : ApplianceModel.t :=
  {| ApplianceModel.type := type;
     ApplianceModel.hours := JNumber (orZero (Number hours));
     ApplianceModel.quantity := JNumber (orOne (Number quantity)) |}.

Section Form.

(** [LocationEditController.applianceTypes] *)
Variable applianceTypes : list ApplianceTypeModel.t.

(** The message to alert, [None] when there is nothing to complain of. *)
Definition validateAppliance (typeName : string) (usage quantity : JsVal)
  : option string :=
  if decide (UtilsController.findType applianceTypes typeName = None) then
    Some "Appliance selected doesn't exist"
  else if negb (match Number usage with
                | Some u => bool_decide (0 ≤ u)
                | None => false
                end) then
    Some "Usage must be 0 or greater"
  else if negb (truthy quantity
                && match Number quantity with
                   | Some q => bool_decide (0 < q)
                   | None => false
                   end) then
    Some "You must have at least 1 appliance"
  else None.

(** [addApppliance] on the appliances of the selected location: [usage] and
    [quantity] are what [parseFloat] and [parseInt] read from the inputs.
    The left result is the message alerted, the right one the list after
    the push. *)
Definition addApppliance (typeName : string) (usage quantity : JsVal)
    (appliances : list ApplianceModel.t) : string + list ApplianceModel.t :=
  match validateAppliance typeName usage quantity with
  | Some validationMessage => inl validationMessage
  | None =>
    match UtilsController.findType applianceTypes typeName with
    | None => inl "Selected appliance type not found. Please reload."
    | Some selectedApplianceType =>
      inr (appliances ++ [newAppliance (Some selectedApplianceType)
                                       usage quantity])
    end
  end.

End Form.
End LocationEditController.

(** ** UtilsController.statsPieChart, the data of the chart *)

(** *** The bar chart of the browser's [UtilsController]

    [statsBarChart] draws one bar for each item, widest first; what is
    modelled is the width of each bar in per cent.  The items are those that
    pass the chart's filter: each has a name and a numeric weight. *)
Module BarChart.



End BarChart.

Module PieChart.


Section Chart.

(** [UtilsController.powerName], the text of an amount of energy. *)
Variable powerName : number → string.



End Chart.
End PieChart.

(** ** Notions the statements are written with *)





(** [x] is not above [y]: by sort value, then, when ties are broken, by
    total power. *)
Definition notAbove (tieBreak : bool) (x y : LeaderboardController.SortValues)
  : Prop :=
  LeaderboardController.sortValue x < LeaderboardController.sortValue y
  ∨ (LeaderboardController.sortValue x = LeaderboardController.sortValue y
     ∧ (tieBreak = false
        ∨ LeaderboardController.totalPower x
          ≤ LeaderboardController.totalPower y)).

(** [a] may stand before [b] in a ranking: descending, [b] is not above
    [a]; ascending, [a] is not above [b]. *)
Definition ranksBefore (descending tieBreak : bool)
    (a b : LeaderboardController.Scored) : Prop :=
  if descending
  then notAbove tieBreak (LeaderboardController.values b)
                (LeaderboardController.values a)
  else notAbove tieBreak (LeaderboardController.values a)
                (LeaderboardController.values b).

(** A request parameter that is not given: absent, or the empty string. *)
Definition absent (v : option string) : Prop := v = None ∨ v = Some "".

(** The fields of a sanitized entry. *)
Definition sanitizedKeys : list string :=
  ["address"; "region"; "appliances"; "publicId"].

(** The page answered when no entry passes the filters. *)
Definition emptyPage : LeaderboardController.Page :=
  {| LeaderboardController.entries := [];
     LeaderboardController.currentPage := 1;
     LeaderboardController.totalPages := 1;
     LeaderboardController.totalEntries := 0 |}.


(** The entry has an appliance whose type is called [f]. *)
Definition carries (f : string) (e : LeaderboardItemModel.t) : Prop :=
  ∃ apps app,
    LeaderboardItemModel.appliances e = Some apps ∧ app ∈ apps
    ∧ ApplianceTypeModel.name <$> ApplianceModel.type app = Some f.



(** ** Sample records *)

Module Samples.

Definition catalogType (n : string) (w : Z) : ApplianceTypeModel.t :=
  {| ApplianceTypeModel.name := n; ApplianceTypeModel.watts := numZ w |}.

Definition appliance (n : string) (w h q : Z) : ApplianceModel.t :=
  {| ApplianceModel.type := Some (catalogType n w);
     ApplianceModel.hours := JNumber (numZ h);
     ApplianceModel.quantity := JNumber (numZ q) |}.

(** A heater entered with [-2] hours a day. *)
Definition heaterBackwards : ApplianceModel.t := appliance "Heater" 1500 (-2) 1.

(** A lamp burning four hours a day, twice. *)
Definition twoLamps : ApplianceModel.t := appliance "Lamp" 60 4 2.

Definition item (id reg : string) (apps : list ApplianceModel.t)
  : LeaderboardItemModel.t :=
  {| LeaderboardItemModel.address := "1 Main St";
     LeaderboardItemModel.region := Some reg;
     LeaderboardItemModel.appliances := Some apps;
     LeaderboardItemModel.publicId := id;
     LeaderboardItemModel.privateId := "secret-" +:+ id |}.


(** The server's calculator, taken to be the browser's over the server's
    catalog. *)
Definition locationPower : option (list ApplianceModel.t) → number :=
  UtilsController.getLocationPower ApplianceTypeModel.types.

(** Three published locations; the third names a region the table does not
    have. *)
Definition lampsInSydney : LeaderboardItemModel.t := item "a" "NSW" [twoLamps].
Definition heaterInHobart : LeaderboardItemModel.t :=
  item "b" "TAS" [appliance "Heater" 1500 2 1].
Definition computerInAtlantis : LeaderboardItemModel.t :=
  item "c" "Atlantis" [appliance "Computer" 200 8 1].

Definition store : list LeaderboardItemModel.t :=
  [lampsInSydney; heaterInHobart; computerInAtlantis].

(** Requests for the first page. *)
Definition plainQuery : LeaderboardController.Query :=
  LeaderboardController.Build_Query (Some 1%Z) None None None None.



(** The page the plain request is answered with. *)
Definition plainPage : LeaderboardController.Page :=
  match LeaderboardController.getEntries locationPower (Some store) plainQuery with
  | LeaderboardController.Ok200 body => body
  | _ => emptyPage
  end.

End Samples.

(** ** More sample records, for the store and the charts *)

Module StoreSamples.

(** A fourth location, to upload. *)
Definition heaterInAdelaide : LeaderboardItemModel.t :=
  Samples.item "d" "SA" [Samples.appliance "Heater" 1500 1 2].


Definition hasPrivateId (id : string) (e : LeaderboardItemModel.t) : bool :=
  bool_decide (LeaderboardItemModel.privateId e = id).

(** The sample store after the upload of the fourth location, and the page
    the plain request is then answered with. *)
Definition uploaded : list LeaderboardItemModel.t :=
  (LeaderboardStore.uploadNewEntry (Some heaterInAdelaide) Samples.store).1.

Definition uploadedPage : LeaderboardController.Page :=
  match LeaderboardController.getEntries Samples.locationPower (Some uploaded)
          Samples.plainQuery with
  | LeaderboardController.Ok200 body => body
  | _ => emptyPage
  end.


(** The appliances of a location after a heater running two hours a day is
    added to a lamp. *)
Definition withHeater : list ApplianceModel.t :=
  match LocationEditController.addApppliance ApplianceTypeModel.types "Heater"
          (JNumber (numZ 2)) (JNumber (numZ 1)) [Samples.twoLamps] with
  | inr appliances => appliances
  | inl _ => []
  end.

Definition lower : LeaderboardController.SortValues :=
  {| LeaderboardController.sortValue := numZ 1;
     LeaderboardController.totalPower := numZ 500 |}.
Definition higher : LeaderboardController.SortValues :=
  {| LeaderboardController.sortValue := numZ 2;
     LeaderboardController.totalPower := numZ 100 |}.



End StoreSamples.

(** * Properties *)

(** Closed equations between rationals are settled on their fractions. *)
Ltac qc_closed := apply Qc_is_canon; vm_compute; reflexivity.
Ltac qc_differ H := apply (f_equal this) in H; vm_compute in H; discriminate H.

(** ** Sums of numbers *)

Lemma sumQc_app (l1 l2 : list number) : sumQc (l1 ++ l2) = sumQc l1 + sumQc l2.
Proof.
  induction l1 as [|x l1 IH]; simpl.
  - by rewrite Qcplus_0_l.
  - rewrite IH. ring.
Qed.


Lemma foldl_add_sumQc {A} (f : A → number) (l : list A) (a : number) :
  foldl (λ acc x, acc + f x) a l = a + sumQc (f <$> l).
Proof.
  revert a. induction l as [|x l IH]; intros a.
  - cbn. by rewrite Qcplus_0_r.
  - rewrite fmap_cons. cbn [foldl sumQc foldr]. rewrite IH.
    fold (sumQc (f <$> l)). ring.
Qed.

Lemma orZero_default (n : option number) : orZero n = default 0 n.
Proof. destruct n as [x|]; simpl; [|done]. by case_decide. Qed.

(** ** The appliance calculator *)

Section UtilsFacts.

Variable applianceTypes : list ApplianceTypeModel.t.

Let power := UtilsController.getAppliancePower applianceTypes.

(** C2, as amended.  [getAppliancePower] is a total function: it throws
    for no argument.  It returns [0] for a missing instance, a missing
    type, a missing type name and a name the catalog does not hold.
    Otherwise it returns the catalog wattage times the numeric value of the
    hours times the numeric value of the quantity, where a value that is
    not a number, or is [NaN], counts as [0] (it does not propagate) and
    every other number counts as it is, negative ones too; when both values
    are non-negative this is the product with the values clamped at
    zero. *)
Theorem getAppliancePower_unclamped (a : ApplianceModel.t) :
  power None = 0
  ∧ (ApplianceModel.type a = None → power (Some a) = 0)
  ∧ (∀ ty, ApplianceModel.type a = Some ty →
       ApplianceTypeModel.name ty = ""
       ∨ UtilsController.findType applianceTypes (ApplianceTypeModel.name ty)
         = None →
       power (Some a) = 0)
  ∧ (∀ ty appType, ApplianceModel.type a = Some ty →
       ApplianceTypeModel.name ty ≠ "" →
       UtilsController.findType applianceTypes (ApplianceTypeModel.name ty)
       = Some appType →
       power (Some a)
       = ApplianceTypeModel.watts appType
         * default 0 (Number (ApplianceModel.hours a))
         * default 0 (Number (ApplianceModel.quantity a))
       ∧ (0 ≤ default 0 (Number (ApplianceModel.hours a)) →
          0 ≤ default 0 (Number (ApplianceModel.quantity a)) →
          power (Some a)
          = UtilsController.specAppliancePower applianceTypes (Some a))).
Proof.
  unfold power, UtilsController.getAppliancePower.
  split; [done|]. split; [by intros ->|]. split.
  - intros ty -> [Hname|Hfind].
    + by rewrite decide_True.
    + case_decide; [done|]. by rewrite Hfind.
  - intros ty appType Hty Hname Hfind. rewrite Hty.
    rewrite decide_False by done. rewrite Hfind. cbv zeta.
    rewrite !orZero_default. split; [done|].
    intros Hh Hq. unfold UtilsController.specAppliancePower.
    rewrite Hty, Hfind. unfold UtilsController.clamp0. simpl.
    destruct (Number (ApplianceModel.hours a)) as [h|],
             (Number (ApplianceModel.quantity a)) as [q|]; simpl in *;
      repeat case_decide; done.
Qed.

End UtilsFacts.

(** The heater of [-2] hours in the last part of
    [getAppliancePower_unclamped]. *)
Lemma getAppliancePower_unclamped_witness :
  UtilsController.getAppliancePower ApplianceTypeModel.types
    (Some Samples.heaterBackwards)
  = numZ 1500 * numZ (-2) * numZ 1.
Proof.
  pose proof (getAppliancePower_unclamped ApplianceTypeModel.types
                Samples.heaterBackwards) as (_ & _ & _ & H).
  destruct (H (Samples.catalogType "Heater" 1500)
              (Samples.catalogType "Heater" 1500)) as [Heq _].
  - reflexivity.
  - discriminate.
  - reflexivity.
  - exact Heq.
Defined.

(** C2, as stated, fails: a heater entered with [-2] hours is worth
    [-3000] watt-hours to the code and [0] to the clamping formula. *)
Lemma getAppliancePower_negative_hours :
  UtilsController.getAppliancePower ApplianceTypeModel.types
    (Some Samples.heaterBackwards) = numZ (-3000)
  ∧ UtilsController.specAppliancePower ApplianceTypeModel.types
      (Some Samples.heaterBackwards) = 0
  ∧ UtilsController.getAppliancePower ApplianceTypeModel.types
      (Some Samples.heaterBackwards)
    ≠ UtilsController.specAppliancePower ApplianceTypeModel.types
        (Some Samples.heaterBackwards).
Proof.
  split; [qc_closed|]. split; [qc_closed|]. intros H. qc_differ H.
Qed.

(** ** Dictionaries of running totals *)












(** ** The statistics aggregation *)

Section StatisticsFacts.

Variable getLocationPower : option (list ApplianceModel.t) → number.
Variable getAppliancePower : option ApplianceModel.t → number.

Let addEntry :=
  StatisticsController.addEntry getLocationPower getAppliancePower.
Let aggregate :=
  StatisticsController.aggregate getLocationPower getAppliancePower.








End StatisticsFacts.

(** ** The decomposition of region totals into sources *)








Section SourceFacts.

Variable getLocationPower : option (list ApplianceModel.t) → number.
Variable getAppliancePower : option ApplianceModel.t → number.

Let aggregate :=
  StatisticsController.aggregate getLocationPower getAppliancePower.






End SourceFacts.

(** ** The region table *)







(** ** Scores *)

Section ScoreFacts.

Variable getLocationPower : option (list ApplianceModel.t) → number.

Let calculateSortValues :=
  LeaderboardController.calculateSortValues getLocationPower.



End ScoreFacts.

(** ** Sorting *)

Section SortFacts.

Context {A : Type} (cmp : A → A → number).

Lemma insertSorted_Permutation (x : A) (l : list A) :
  insertSorted cmp x l ≡ₚ x :: l.
Proof.
  induction l as [|y l IH]; cbn; [done|].
  case_decide; [|done]. rewrite IH. apply perm_swap.
Qed.

Lemma Array_sort_Permutation (l : list A) : Array_sort cmp l ≡ₚ l.
Proof.
  induction l as [|x l IH]; cbn; [done|].
  fold (Array_sort cmp l). by rewrite insertSorted_Permutation, IH.
Qed.

(** A comparator that is total and transitive on "not after". *)
Hypothesis cmp_total : ∀ a b, 0 < cmp a b → cmp b a ≤ 0.
Hypothesis cmp_trans : ∀ a b c, cmp a b ≤ 0 → cmp b c ≤ 0 → cmp a c ≤ 0.

Lemma insertSorted_sorted (x : A) (l : list A) :
  StronglySorted (λ a b, cmp a b ≤ 0) l →
  StronglySorted (λ a b, cmp a b ≤ 0) (insertSorted cmp x l).
Proof.
  induction 1 as [|y l Hsorted IH Hall]; cbn.
  - repeat constructor.
  - case_decide as Hxy.
    + constructor; [done|].
      rewrite insertSorted_Permutation. constructor; [|done].
      by apply cmp_total.
    + apply Qcle_ngt in Hxy. constructor.
      * by constructor.
      * constructor; [done|]. eapply Forall_impl; [exact Hall|].
        intros z Hz. by apply (cmp_trans x y z).
Qed.

Lemma Array_sort_sorted (l : list A) :
  StronglySorted (λ a b, cmp a b ≤ 0) (Array_sort cmp l).
Proof.
  induction l as [|x l IH]; cbn; [constructor|].
  by apply insertSorted_sorted.
Qed.

End SortFacts.


(** ** Numbers in order *)

Lemma Qc_minus_le_0 (x y : number) : x - y ≤ 0 ↔ x ≤ y.
Proof.
  rewrite (Qcplus_le_mono_r (x - y) 0 y).
  by replace (x - y + y) with x by ring; replace (0 + y) with y by ring.
Qed.

Lemma Qc_minus_eq_0 (x y : number) : x - y = 0 ↔ x = y.
Proof.
  split; [|intros ->; ring].
  intros H. replace x with (x - y + y) by ring. rewrite H. ring.
Qed.

Lemma Qc_le_lt_eq (x y : number) : x ≤ y ↔ x < y ∨ x = y.
Proof.
  split.
  - intros H. destruct (decide (x = y)) as [|Hne]; [by right|left].
    by apply Qcle_lt_or_eq in H as [|].
  - intros [H| ->]; [by apply Qclt_le_weak|done].
Qed.

(** ** The comparator *)

Lemma notAbove_trans (tieBreak : bool) (x y z : LeaderboardController.SortValues) :
  notAbove tieBreak x y → notAbove tieBreak y z → notAbove tieBreak x z.
Proof.
  unfold notAbove. intros [Hxy|[Hxy Hxy']] [Hyz|[Hyz Hyz']].
  - left. by trans (LeaderboardController.sortValue y).
  - left. by rewrite <-Hyz.
  - left. by rewrite Hxy.
  - right. split; [congruence|].
    destruct Hxy' as [?|Hxy']; [by left|].
    destruct Hyz' as [?|Hyz']; [by left|].
    right. by trans (LeaderboardController.totalPower y).
Qed.

Lemma notAbove_total (tieBreak : bool) (x y : LeaderboardController.SortValues) :
  ¬ notAbove tieBreak x y → notAbove tieBreak y x.
Proof.
  unfold notAbove. intros Hnot.
  destruct (decide (LeaderboardController.sortValue x
                    < LeaderboardController.sortValue y)) as [Hlt|Hge].
  { destruct Hnot. by left. }
  apply Qcle_ngt, Qc_le_lt_eq in Hge as [Hlt|Heq]; [by left|].
  right. split; [done|]. right.
  apply Qclt_le_weak, Qclt_nge. intros Hle. apply Hnot. right. split; [done|].
  by right.
Qed.

Lemma compareEntries_le_0 (a b : LeaderboardController.SortValues)
    (sortOrder powerSourceFilter : string) :
  LeaderboardController.compareEntries a b sortOrder powerSourceFilter ≤ 0
  ↔ if decide (sortOrder = "HIGH")
    then notAbove (bool_decide (powerSourceFilter ≠ "ANY")) b a
    else notAbove (bool_decide (powerSourceFilter ≠ "ANY")) a b.
Proof.
  assert (∀ x y : LeaderboardController.SortValues,
    (if decide (LeaderboardController.sortValue x
                - LeaderboardController.sortValue y ≠ 0)
     then LeaderboardController.sortValue x - LeaderboardController.sortValue y
     else if decide (powerSourceFilter ≠ "ANY")
          then LeaderboardController.totalPower x
               - LeaderboardController.totalPower y
          else 0) ≤ 0
    ↔ notAbove (bool_decide (powerSourceFilter ≠ "ANY")) x y) as Hlex.
  { intros x y. unfold notAbove. case_decide as Hd.
    - rewrite Qc_minus_le_0, Qc_le_lt_eq. rewrite Qc_minus_eq_0 in Hd. tauto.
    - apply (proj1 (Qc_minus_eq_0 _ _)) in Hd. rewrite Hd.
      case_decide as Hany.
      + rewrite Qc_minus_le_0, bool_decide_eq_false.
        pose proof (irreflexivity Qclt (LeaderboardController.sortValue y)) as Hirr.
        unfold complement in Hirr. split.
        * intros Hle. right. split; [done|]. by right.
        * intros [?|[_ [?|?]]]; done.
      + rewrite bool_decide_eq_false. split; [|intros _; apply Qcle_refl].
        intros _. right. split; [done|]. left. tauto. }
  unfold LeaderboardController.compareEntries.
  destruct (decide (sortOrder = "HIGH")); apply Hlex.
Qed.

Lemma compareEntries_total (sortOrder powerSourceFilter : string)
    (a b : LeaderboardController.SortValues) :
  0 < LeaderboardController.compareEntries a b sortOrder powerSourceFilter →
  LeaderboardController.compareEntries b a sortOrder powerSourceFilter ≤ 0.
Proof.
  rewrite Qclt_nge, !compareEntries_le_0.
  case_decide; apply notAbove_total.
Qed.

Lemma compareEntries_trans (sortOrder powerSourceFilter : string)
    (a b c : LeaderboardController.SortValues) :
  LeaderboardController.compareEntries a b sortOrder powerSourceFilter ≤ 0 →
  LeaderboardController.compareEntries b c sortOrder powerSourceFilter ≤ 0 →
  LeaderboardController.compareEntries a c sortOrder powerSourceFilter ≤ 0.
Proof.
  rewrite !compareEntries_le_0. case_decide; eauto using notAbove_trans.
Qed.

Lemma StronglySorted_weaken {A} (R1 R2 : A → A → Prop) (l : list A) :
  (∀ a b, R1 a b → R2 a b) → StronglySorted R1 l → StronglySorted R2 l.
Proof.
  intros Himpl. induction 1 as [|x l _ IH Hall]; constructor; [done|].
  eapply Forall_impl; [exact Hall|]. intros b. apply Himpl.
Qed.

(** ** The ranking *)

Section RankFacts.

Variable getLocationPower : option (list ApplianceModel.t) → number.

Let rankedEntries := LeaderboardController.rankedEntries getLocationPower.

Lemma rankedEntries_sorted (all : list LeaderboardItemModel.t)
    (appTypeFilter powerSourceFilter regionFilter sortOrder : string) :
  StronglySorted
    (λ a b, LeaderboardController.compareEntries
              (LeaderboardController.values a) (LeaderboardController.values b)
              sortOrder powerSourceFilter ≤ 0)
    (rankedEntries all appTypeFilter powerSourceFilter regionFilter sortOrder).
Proof.
  unfold rankedEntries, LeaderboardController.rankedEntries.
  apply (Array_sort_sorted
           (λ a b, LeaderboardController.compareEntries
                     (LeaderboardController.values a)
                     (LeaderboardController.values b)
                     sortOrder powerSourceFilter)).
  - intros a b. apply compareEntries_total.
  - intros a b c. apply compareEntries_trans.
Qed.

(** C6.  The ranked list holds the scored entries that pass the filters,
    each once.  Under ["HIGH"] it is in descending order of sort value and
    under ["LOW"] in ascending order; when the power-source filter is not
    ["ANY"], entries of equal sort value stand in that same direction of
    total power.  Under ["ANY"] the comparator answers [0] for two entries
    of equal sort value, whatever their total power.  Two entries of equal
    sort value and total power [40] and [80], ranked under ["HIGH"] with a
    filter other than ["ANY"], come out with the [80] first. *)
Theorem rankedEntries_order (all : list LeaderboardItemModel.t)
    (appTypeFilter powerSourceFilter regionFilter sortOrder : string) :
  rankedEntries all appTypeFilter powerSourceFilter regionFilter sortOrder
  ≡ₚ LeaderboardController.score getLocationPower powerSourceFilter
       <$> List.filter
             (LeaderboardController.keepEntry regionFilter appTypeFilter) all
  ∧ (sortOrder = "HIGH" →
     StronglySorted
       (ranksBefore true (bool_decide (powerSourceFilter ≠ "ANY")))
       (rankedEntries all appTypeFilter powerSourceFilter regionFilter
                      sortOrder))
  ∧ (sortOrder = "LOW" →
     StronglySorted
       (ranksBefore false (bool_decide (powerSourceFilter ≠ "ANY")))
       (rankedEntries all appTypeFilter powerSourceFilter regionFilter
                      sortOrder))
  ∧ (∀ a b,
       LeaderboardController.sortValue a = LeaderboardController.sortValue b →
       LeaderboardController.compareEntries a b sortOrder "ANY" = 0)
  ∧ (∀ e40 e80 : LeaderboardController.Scored,
       powerSourceFilter ≠ "ANY" →
       LeaderboardController.sortValue (LeaderboardController.values e40)
       = LeaderboardController.sortValue (LeaderboardController.values e80) →
       LeaderboardController.totalPower (LeaderboardController.values e40)
       = numZ 40 →
       LeaderboardController.totalPower (LeaderboardController.values e80)
       = numZ 80 →
       Array_sort
         (λ a b, LeaderboardController.compareEntries
                   (LeaderboardController.values a)
                   (LeaderboardController.values b)
                   "HIGH" powerSourceFilter)
         [e40; e80]
       = [e80; e40]
       ∧ Array_sort
           (λ a b, LeaderboardController.compareEntries
                     (LeaderboardController.values a)
                     (LeaderboardController.values b)
                     "HIGH" powerSourceFilter)
           [e80; e40]
         = [e80; e40]).
Proof.
  split; [|split; [|split; [|split]]].
  - unfold rankedEntries, LeaderboardController.rankedEntries.
    apply Array_sort_Permutation.
  - intros Horder.
    eapply StronglySorted_weaken; [|apply rankedEntries_sorted].
    intros a b. cbv beta. rewrite compareEntries_le_0.
    by rewrite decide_True by done.
  - intros Horder.
    eapply StronglySorted_weaken; [|apply rankedEntries_sorted].
    intros a b. cbv beta. rewrite compareEntries_le_0.
    by rewrite decide_False by by rewrite Horder.
  - intros a b Heq. unfold LeaderboardController.compareEntries.
    rewrite Heq. cbv zeta.
    replace (LeaderboardController.sortValue b
             - LeaderboardController.sortValue b) with 0 by ring.
    destruct (decide (sortOrder = "HIGH")); by rewrite decide_False by tauto.
  - intros e40 e80 Hany Hsame H40 H80.
    assert (¬ notAbove (bool_decide (powerSourceFilter ≠ "ANY"))
                (LeaderboardController.values e80)
                (LeaderboardController.values e40)) as Hnot.
    { unfold notAbove. rewrite Hsame, H40, H80.
      intros [Hlt|[_ [Htie|Hle]]].
      - by apply (irreflexivity Qclt) in Hlt.
      - by apply bool_decide_eq_false in Htie.
      - by vm_compute in Hle. }
    cbn. split.
    + rewrite decide_True; [done|].
      apply Qclt_nge. by rewrite compareEntries_le_0.
    + rewrite decide_False; [done|].
      intros Hpos. apply compareEntries_total in Hpos.
      by rewrite compareEntries_le_0 in Hpos.
Qed.

End RankFacts.

(** ** Pages *)

Lemma Math_ceil_div_16 (n : Z) : Math_ceil_div n 16 = ((n + 15) / 16)%Z.
Proof.
  unfold Math_ceil_div, Qceiling, Qfloor. cbn.
  change (Z.pos (1 * 16)) with 16%Z. rewrite Z.mul_1_r.
  pose proof (Z.div_mod (- n) 16 ltac:(lia)).
  pose proof (Z.mod_pos_bound (- n) 16 ltac:(lia)).
  pose proof (Z.div_mod (n + 15) 16 ltac:(lia)).
  pose proof (Z.mod_pos_bound (n + 15) 16 ltac:(lia)).
  lia.
Qed.

Lemma totalPagesOf_ceil (n : Z) :
  (0 ≤ n)%Z →
  LeaderboardController.totalPagesOf n = Z.max 1 ((n + 15) / 16)
  ∧ ((n = 0 ∧ LeaderboardController.totalPagesOf n = 1)
     ∨ (16 * (LeaderboardController.totalPagesOf n - 1) < n
        ∧ n ≤ 16 * LeaderboardController.totalPagesOf n))%Z.
Proof.
  intros Hn. unfold LeaderboardController.totalPagesOf.
  change LeaderboardController.PAGE_SIZE with 16%Z.
  rewrite Math_ceil_div_16. cbv zeta.
  pose proof (Z.div_mod (n + 15) 16 ltac:(lia)).
  pose proof (Z.mod_pos_bound (n + 15) 16 ltac:(lia)).
  case_decide; lia.
Qed.

Lemma safePageOf_clamp (page totalPages : Z) :
  (1 ≤ totalPages)%Z →
  (1 ≤ LeaderboardController.safePageOf page totalPages ≤ totalPages)%Z
  ∧ ((1 ≤ page ≤ totalPages)%Z →
     LeaderboardController.safePageOf page totalPages = page)
  ∧ ((totalPages < page)%Z →
     LeaderboardController.safePageOf page totalPages = totalPages)
  ∧ ((page < 1)%Z → LeaderboardController.safePageOf page totalPages = 1%Z).
Proof. unfold LeaderboardController.safePageOf. lia. Qed.

Lemma sanitize_is_Some (e : LeaderboardController.Scored) :
  is_Some (LeaderboardController.sanitize e)
  ↔ is_Some (LeaderboardItemModel.appliances (LeaderboardController.entry e)).
Proof.
  unfold LeaderboardController.sanitize.
  destruct (LeaderboardItemModel.appliances _); split; intros [? ?]; eauto;
    discriminate.
Qed.

Lemma sanitize_keys (e : LeaderboardController.Scored) (j : Json) :
  LeaderboardController.sanitize e = Some j →
  keysOf j = sanitizedKeys.
Proof.
  unfold LeaderboardController.sanitize.
  destruct (LeaderboardItemModel.appliances _); [|done]. by intros [= <-].
Qed.

Lemma Forall2_elem_right {A B} (P : A → B → Prop) (l : list A) (k : list B) (y : B) :
  Forall2 P l k → y ∈ k → ∃ x, x ∈ l ∧ P x y.
Proof.
  induction 1 as [|x y' l k Hxy _ IH]; intros Hy.
  - by apply elem_of_nil in Hy.
  - apply elem_of_cons in Hy as [->|Hy].
    + exists x. split; [by left|done].
    + destruct (IH Hy) as (x' & Hx' & HP). exists x'. split; [by right|done].
Qed.

Lemma elem_of_take_drop {A} (x : A) (n m : nat) (l : list A) :
  x ∈ take n (drop m l) → x ∈ l.
Proof.
  intros Hx. apply elem_of_take in Hx as (i & Hi & _).
  rewrite lookup_drop in Hi. by eapply list_elem_of_lookup_2.
Qed.

Section PageFacts.

Variable getLocationPower : option (list ApplianceModel.t) → number.

Let rankedEntries := LeaderboardController.rankedEntries getLocationPower.
Let getEntries := LeaderboardController.getEntries getLocationPower.

(** The ranked list the query of a request is answered from. *)
Let rankedFor (all : list LeaderboardItemModel.t)
    (query : LeaderboardController.Query) : list LeaderboardController.Scored :=
  rankedEntries all
    (orString (LeaderboardController.appType query) "ANY")
    (orString (LeaderboardController.powerSource query) "GREEN")
    (orString (LeaderboardController.region query) "ALL")
    (orString (LeaderboardController.sortOrder query) "HIGH").

Lemma rankedEntries_appliances (all : list LeaderboardItemModel.t)
    (appTypeFilter powerSourceFilter regionFilter sortOrder : string) :
  Forall (λ e, is_Some (LeaderboardItemModel.appliances e)) all →
  Forall (λ s, is_Some (LeaderboardItemModel.appliances
                          (LeaderboardController.entry s)))
         (rankedEntries all appTypeFilter powerSourceFilter regionFilter
                        sortOrder).
Proof.
  intros Hall. unfold rankedEntries, LeaderboardController.rankedEntries.
  rewrite Array_sort_Permutation. rewrite Forall_fmap.
  rewrite Forall_forall in Hall. apply Forall_forall. intros e He.
  apply list_elem_of_In, filter_In in He as [He _].
  apply Hall. by apply list_elem_of_In.
Qed.

Lemma getEntries_Ok200 (all : list LeaderboardItemModel.t)
    (query : LeaderboardController.Query) (body : LeaderboardController.Page) :
  getEntries (Some all) query = LeaderboardController.Ok200 body →
  let n := Z.of_nat (length (rankedFor all query)) in
  LeaderboardController.totalEntries body = n
  ∧ LeaderboardController.totalPages body
    = LeaderboardController.totalPagesOf n
  ∧ LeaderboardController.currentPage body
    = LeaderboardController.safePageOf
        (LeaderboardController.pageOf (LeaderboardController.page query))
        (LeaderboardController.totalPagesOf n)
  ∧ mapM LeaderboardController.sanitize
         (take 16 (drop (Z.to_nat (16 * (LeaderboardController.currentPage body - 1)))
                        (rankedFor all query)))
    = Some (LeaderboardController.entries body).
Proof.
  unfold getEntries, LeaderboardController.getEntries. cbv zeta.
  fold (rankedEntries all
    (orString (LeaderboardController.appType query) "ANY")
    (orString (LeaderboardController.powerSource query) "GREEN")
    (orString (LeaderboardController.region query) "ALL")
    (orString (LeaderboardController.sortOrder query) "HIGH")).
  fold (rankedFor all query).
  destruct (mapM _ _) as [sanitized|] eqn:Hm; [|done].
  intros [= <-]. cbn [LeaderboardController.totalEntries
    LeaderboardController.totalPages LeaderboardController.currentPage
    LeaderboardController.entries].
  split; [done|]. split; [done|]. split; [done|].
  rewrite <-Hm. unfold Array_slice. f_equal.
  change LeaderboardController.PAGE_SIZE with 16%Z. f_equal; [|f_equal]; f_equal; lia.
Qed.

Lemma getEntries_answers (all : list LeaderboardItemModel.t)
    (query : LeaderboardController.Query) :
  Forall (λ e, is_Some (LeaderboardItemModel.appliances e)) all →
  ∃ body, getEntries (Some all) query = LeaderboardController.Ok200 body.
Proof.
  intros Hall. unfold getEntries, LeaderboardController.getEntries. cbv zeta.
  match goal with
  | |- ∃ _, match mapM _ ?page with _ => _ end = _ =>
    assert (is_Some (mapM LeaderboardController.sanitize page)) as [s Hs]
  end.
  { apply mapM_is_Some. unfold Array_slice.
    apply Forall_take, Forall_drop.
    eapply Forall_impl; [by apply rankedEntries_appliances|].
    intros e He. by apply sanitize_is_Some. }
  rewrite Hs. eauto.
Qed.

(** C7.  With the store at hand the query never answers 500, and it answers
    a page whenever every stored entry has an appliance array, whatever
    page is asked for.  In the page answered, [totalEntries] is the number
    [n] of ranked entries, [totalPages] is [ceil (n / 16)] and at least
    [1], and [currentPage] is the requested page clamped into
    [1 .. totalPages]: the requested page when it is in range, the last
    page when it is beyond, the first page when it is zero, negative or not
    a number; the entries are the sixteen ranked entries from position
    [16 * (currentPage - 1)] on, sanitized.  With 33 entries there are 3
    pages; page 99 becomes 3, pages 0 and -7 become 1. *)
Theorem getEntries_pagination (all : list LeaderboardItemModel.t)
    (query : LeaderboardController.Query) :
  getEntries (Some all) query ≠ LeaderboardController.Error500
  ∧ (Forall (λ e, is_Some (LeaderboardItemModel.appliances e)) all →
     ∃ body, getEntries (Some all) query = LeaderboardController.Ok200 body)
  ∧ (∀ body, getEntries (Some all) query = LeaderboardController.Ok200 body →
       let n := Z.of_nat (length (rankedFor all query)) in
       LeaderboardController.totalEntries body = n
       ∧ LeaderboardController.totalPages body
         = Z.max 1 (Math_ceil_div n LeaderboardController.PAGE_SIZE)
       ∧ LeaderboardController.totalPages body = Z.max 1 ((n + 15) / 16)
       ∧ (1 ≤ LeaderboardController.currentPage body
          ≤ LeaderboardController.totalPages body)%Z
       ∧ (∀ p, LeaderboardController.page query = Some p →
            ((1 ≤ p ≤ LeaderboardController.totalPages body)%Z →
             LeaderboardController.currentPage body = p)
            ∧ ((LeaderboardController.totalPages body < p)%Z →
               LeaderboardController.currentPage body
               = LeaderboardController.totalPages body)
            ∧ ((p ≤ 0)%Z → LeaderboardController.currentPage body = 1%Z))
       ∧ (LeaderboardController.page query = None →
          LeaderboardController.currentPage body = 1%Z)
       ∧ mapM LeaderboardController.sanitize
              (take 16
                 (drop (Z.to_nat
                          (16 * (LeaderboardController.currentPage body - 1)))
                       (rankedFor all query)))
         = Some (LeaderboardController.entries body))
  ∧ (LeaderboardController.totalPagesOf 33 = 3%Z
     ∧ LeaderboardController.safePageOf
         (LeaderboardController.pageOf (Some 99%Z)) 3 = 3%Z
     ∧ LeaderboardController.safePageOf
         (LeaderboardController.pageOf (Some 0%Z)) 3 = 1%Z
     ∧ LeaderboardController.safePageOf
         (LeaderboardController.pageOf (Some (-7)%Z)) 3 = 1%Z).
Proof.
  split; [|split; [apply getEntries_answers|split; [|by vm_compute]]].
  - unfold getEntries, LeaderboardController.getEntries. cbv zeta.
    by destruct (mapM _ _).
  - intros body Hbody n.
    apply getEntries_Ok200 in Hbody as (Hn & Hpages & Hpage & Hitems).
    fold n in Hn, Hpages, Hpage.
    destruct (totalPagesOf_ceil n ltac:(lia)) as [Hmax Hceil].
    assert (1 ≤ LeaderboardController.totalPagesOf n)%Z as Hone by lia.
    destruct (safePageOf_clamp
                (LeaderboardController.pageOf (LeaderboardController.page query))
                _ Hone) as (Hrange & Hin & Habove & Hbelow).
    rewrite <-Hpages, <-Hpage in *.
    split; [done|]. split.
    { rewrite Hmax. change LeaderboardController.PAGE_SIZE with 16%Z.
      by rewrite Math_ceil_div_16. }
    split; [done|]. split; [done|]. split; [|split; [|done]].
    + intros p Hp. rewrite Hp in *. unfold LeaderboardController.pageOf in *.
      case_decide; repeat split; lia.
    + intros Hp. rewrite Hp in *. apply Hin. cbn. lia.
Qed.

(** C9.  A page is answered whenever every stored entry has an appliance
    array, and every entry of an answered page is the projection of a
    stored entry to an object of exactly the four fields address, region,
    appliances and publicId, holding the entry's values under them; no
    entry of the page has a privateId field. *)
Theorem getEntries_sanitized (all : list LeaderboardItemModel.t)
    (query : LeaderboardController.Query) :
  (Forall (λ e, is_Some (LeaderboardItemModel.appliances e)) all →
   ∃ body, getEntries (Some all) query = LeaderboardController.Ok200 body)
  ∧ ∀ body,
      getEntries (Some all) query = LeaderboardController.Ok200 body →
      Forall (λ j, keysOf j = sanitizedKeys ∧ ("privateId" ∉ keysOf j)
                   ∧ ∃ e apps,
                       e ∈ all
                       ∧ LeaderboardItemModel.appliances e = Some apps
                       ∧ j = JsonObject
                           [ ("address",
                              JsonString (LeaderboardItemModel.address e));
                             ("region",
                              match LeaderboardItemModel.region e with
                              | Some r => JsonString r
                              | None => JsonRaw JUndefined
                              end);
                             ("appliances",
                              JsonArray
                                (LeaderboardController.applianceJson <$> apps));
                             ("publicId",
                              JsonString (LeaderboardItemModel.publicId e)) ])
             (LeaderboardController.entries body).
Proof.
  split; [apply getEntries_answers|].
  intros body Hbody. apply getEntries_Ok200 in Hbody as (_ & _ & _ & Hitems).
  apply mapM_Some in Hitems. apply Forall_forall. intros j Hj.
  apply (Forall2_elem_right _ _ _ _ Hitems) in Hj as (s & Hs & Hsj).
  split; [by apply (sanitize_keys s)|]. split.
  { rewrite (sanitize_keys s j Hsj). unfold sanitizedKeys. intros Hin.
    repeat (apply elem_of_cons in Hin as [Hin|Hin]; [discriminate|]).
    by apply elem_of_nil in Hin. }
  apply elem_of_take_drop in Hs.
  unfold rankedFor, rankedEntries, LeaderboardController.rankedEntries in Hs.
  rewrite Array_sort_Permutation in Hs.
  apply list_elem_of_fmap in Hs as (e & -> & He).
  apply list_elem_of_In, filter_In in He as [He _]. apply list_elem_of_In in He.
  unfold LeaderboardController.sanitize in Hsj.
  cbn [LeaderboardController.entry LeaderboardController.score] in Hsj.
  destruct (LeaderboardItemModel.appliances e) as [apps|] eqn:Happs; [|done].
  injection Hsj as <-. by exists e, apps.
Qed.

End PageFacts.

(** ** Request parameters *)

Lemma orString_absent (v : option string) (d : string) :
  absent v → orString v d = d.
Proof. by intros [->| ->]. Qed.







Lemma keepEntry_true (regionFilter appTypeFilter : string)
    (e : LeaderboardItemModel.t) :
  LeaderboardController.keepEntry regionFilter appTypeFilter e = true →
  (regionFilter ≠ "ALL" → LeaderboardItemModel.region e = Some regionFilter)
  ∧ (appTypeFilter ≠ "ANY" → carries appTypeFilter e).
Proof.
  unfold LeaderboardController.keepEntry. case_decide as Hregion; [done|].
  intros Hkeep. split.
  - intros Hall. apply dec_stable. intros Hne. apply Hregion. by split.
  - intros Hany. rewrite decide_True in Hkeep by done.
    destruct (LeaderboardItemModel.appliances e) as [apps|] eqn:Happs; [|done].
    apply existsb_exists in Hkeep as (app & Hin & Happ).
    apply bool_decide_eq_true in Happ. apply list_elem_of_In in Hin.
    by exists apps, app.
Qed.

Section ParameterFacts.

Variable getLocationPower : option (list ApplianceModel.t) → number.

Let rankedEntries := LeaderboardController.rankedEntries getLocationPower.
Let getEntries := LeaderboardController.getEntries getLocationPower.
Let calculateSortValues :=
  LeaderboardController.calculateSortValues getLocationPower.








End ParameterFacts.

(** ** The sample store *)



Lemma plainPage_answered :
  LeaderboardController.getEntries Samples.locationPower (Some Samples.store)
                                   Samples.plainQuery
  = LeaderboardController.Ok200 Samples.plainPage.
Proof. vm_compute. reflexivity. Defined.




(** [rankedEntries_order] on the sample store, highest green share first. *)
Lemma rankedEntries_order_witness :
  StronglySorted (ranksBefore true (bool_decide ("GREEN" ≠ "ANY")))
    (LeaderboardController.rankedEntries Samples.locationPower Samples.store
       "ANY" "GREEN" "ALL" "HIGH").
Proof.
  destruct (rankedEntries_order Samples.locationPower Samples.store
              "ANY" "GREEN" "ALL" "HIGH") as (_ & Hhigh & _).
  exact (Hhigh eq_refl).
Defined.

(** [getEntries_pagination] on the sample store: page 1 of 1, 3 entries. *)
Lemma getEntries_pagination_witness :
  LeaderboardController.totalEntries Samples.plainPage = 3%Z
  ∧ LeaderboardController.totalPages Samples.plainPage = 1%Z
  ∧ LeaderboardController.currentPage Samples.plainPage = 1%Z.
Proof.
  destruct (getEntries_pagination Samples.locationPower Samples.store
              Samples.plainQuery) as (_ & _ & Hpage & _).
  destruct (Hpage Samples.plainPage plainPage_answered)
    as (Hn & _ & Hpages & _ & Hp & _).
  split; [exact Hn|]. split; [exact Hpages|].
  destruct (Hp 1%Z eq_refl) as (Hin & _).
  apply Hin. rewrite Hpages. vm_compute. split; discriminate.
Defined.


(** [getEntries_sanitized] on the page of the sample store. *)
Lemma getEntries_sanitized_witness :
  Forall (λ j, keysOf j = sanitizedKeys ∧ ("privateId" ∉ keysOf j))
         (LeaderboardController.entries Samples.plainPage).
Proof.
  eapply Forall_impl.
  - exact (proj2 (getEntries_sanitized Samples.locationPower Samples.store
                    Samples.plainQuery)
                 Samples.plainPage plainPage_answered).
  - intros j (Hkeys & Hprivate & _). split; [exact Hkeys | exact Hprivate].
Defined.


(** * Further properties of the code *)

(** ** The in-memory store *)

Section StoreFacts.

Context {A : Type}.

Lemma filter_split_length (p : A → bool) (l : list A) :
  (length (List.filter p l) + length (List.filter (λ e, negb (p e)) l))%nat
  = length l.
Proof.
  induction l as [|x l IH]; [done|].
  cbn. destruct (p x); cbn; lia.
Qed.

Lemma filter_negb_idem (p : A → bool) (l : list A) :
  List.filter (λ e, negb (p e)) (List.filter (λ e, negb (p e)) l)
  = List.filter (λ e, negb (p e)) l.
Proof.
  induction l as [|x l IH]; [done|].
  cbn. destruct (p x) eqn:Hx; cbn; [done|]. by rewrite Hx, IH.
Qed.

Lemma filter_sublist (p : A → bool) (l : list A) : sublist (List.filter p l) l.
Proof.
  induction l as [|x l IH]; [done|].
  cbn. destruct (p x); by constructor.
Qed.

Lemma delete_count (predicate : A → bool) (data : list A) :
  (ServerDataModel.delete predicate data).2
  = Z.of_nat (length (List.filter predicate data)).
Proof.
  unfold ServerDataModel.delete. cbn [snd].
  pose proof (filter_split_length predicate data). lia.
Qed.

Lemma delete_elem_of (predicate : A → bool) (data : list A) (e : A) :
  e ∈ (ServerDataModel.delete predicate data).1
  ↔ e ∈ data ∧ predicate e = false.
Proof.
  unfold ServerDataModel.delete. cbn [fst].
  rewrite !list_elem_of_In, filter_In. by rewrite negb_true_iff.
Qed.

Lemma delete_again (predicate : A → bool) (data : list A) :
  ServerDataModel.delete predicate (ServerDataModel.delete predicate data).1
  = ((ServerDataModel.delete predicate data).1, 0%Z).
Proof.
  unfold ServerDataModel.delete. cbn [fst].
  rewrite filter_negb_idem. f_equal. lia.
Qed.

(** X1.  [delete] answers the number of stored entries the predicate
    holds for; the store it leaves holds exactly the other entries, in
    their order, none of which satisfies the predicate; a second [delete]
    with the predicate removes nothing and answers [0]. *)
Theorem delete_removes_matching (predicate : A → bool) (data : list A) :
  (ServerDataModel.delete predicate data).2
  = Z.of_nat (length (List.filter predicate data))
  ∧ (∀ e, e ∈ (ServerDataModel.delete predicate data).1
          ↔ e ∈ data ∧ predicate e = false)
  ∧ sublist (ServerDataModel.delete predicate data).1 data
  ∧ ServerDataModel.delete predicate (ServerDataModel.delete predicate data).1
    = ((ServerDataModel.delete predicate data).1, 0%Z).
Proof.
  split; [apply delete_count|]. split; [apply delete_elem_of|].
  split; [|apply delete_again].
  unfold ServerDataModel.delete. cbn [fst]. apply filter_sublist.
Qed.

Lemma findIndex_None (p : A → bool) (l : list A) :
  ServerDataModel.findIndex p l = None ↔ Forall (λ e, p e = false) l.
Proof.
  induction l as [|x l IH]; cbn.
  - split; [constructor|done].
  - rewrite Forall_cons. destruct (p x); [split; [done|by intros [? _]]|].
    rewrite fmap_None, IH. tauto.
Qed.

Lemma findIndex_Some_Exists (p : A → bool) (l : list A) (i : nat) :
  ServerDataModel.findIndex p l = Some i → Exists (λ e, p e = true) l.
Proof.
  revert i. induction l as [|x l IH]; intros i; cbn; [done|].
  destruct (p x) eqn:Hx; [by left|].
  intros Hi. apply fmap_Some in Hi as (j & Hj & _). right. by apply (IH j).
Qed.

Lemma findIndex_first (p : A → bool) (before after : list A) (e : A) :
  Forall (λ b, p b = false) before → p e = true →
  ServerDataModel.findIndex p (before ++ e :: after) = Some (length before).
Proof.
  intros Hbefore He. induction Hbefore as [|b before Hb _ IH]; cbn.
  - by rewrite He.
  - by rewrite Hb, IH.
Qed.

(** X2.  [update] answers [true] exactly when some stored entry satisfies
    the predicate.  It then puts the new record in the place of the first
    such entry and touches nothing else, later entries that satisfy the
    predicate included; when it answers [false] the store is as it was.
    The number of stored entries never changes. *)
Theorem update_replaces_first (predicate : A → bool) (updatedEntryData : A)
    (data : list A) :
  ((ServerDataModel.update predicate updatedEntryData data).2 = true
   ↔ Exists (λ e, predicate e = true) data)
  ∧ length (ServerDataModel.update predicate updatedEntryData data).1
    = length data
  ∧ ((ServerDataModel.update predicate updatedEntryData data).2 = false →
     (ServerDataModel.update predicate updatedEntryData data).1 = data)
  ∧ (∀ before e after,
       data = before ++ e :: after →
       Forall (λ b, predicate b = false) before → predicate e = true →
       ServerDataModel.update predicate updatedEntryData data
       = (before ++ updatedEntryData :: after, true)).
Proof.
  unfold ServerDataModel.update.
  split; [|split; [|split]].
  - destruct (ServerDataModel.findIndex predicate data) as [i|] eqn:Hi; cbn.
    + split; [intros _|done]. by apply (findIndex_Some_Exists _ _ i).
    + split; [done|]. intros Hex. apply findIndex_None in Hi.
      apply Exists_exists in Hex as (x & Hx & Hpx).
      rewrite Forall_forall in Hi. specialize (Hi x Hx). congruence.
  - destruct (ServerDataModel.findIndex predicate data); cbn; [|done].
    apply length_insert.
  - by destruct (ServerDataModel.findIndex predicate data).
  - intros before e after -> Hbefore He.
    rewrite findIndex_first by done. f_equal.
    unfold ServerDataModel.init.
    rewrite insert_app_r_alt by lia. by rewrite Nat.sub_diag.
Qed.

Lemma find_app_first (p : A → bool) (l1 l2 : list A) :
  List.find p (l1 ++ l2)
  = match List.find p l1 with Some x => Some x | None => List.find p l2 end.
Proof.
  induction l1 as [|x l1 IH]; [done|]. cbn. by destruct (p x).
Qed.

Lemma find_head_filter (p : A → bool) (l : list A) :
  List.find p l = head (List.filter p l).
Proof.
  induction l as [|x l IH]; [done|]. cbn. by destruct (p x).
Qed.

(** X3.  An inserted record goes to the end of the store: [getMany] after
    the insert is [getMany] before it, followed by the record when the
    predicate holds for it.  [get] answers the first record of [getMany];
    so after an insert it answers what it answered before when that was a
    record, and the inserted record when nothing stored before satisfied the
    predicate and the record does. *)
Theorem insert_then_get (predicate : A → bool) (entryData : A) (data : list A) :
  ServerDataModel.getMany predicate (ServerDataModel.insert entryData data)
  = ServerDataModel.getMany predicate data
    ++ (if predicate entryData then [entryData] else [])
  ∧ ServerDataModel.get predicate data
    = head (ServerDataModel.getMany predicate data)
  ∧ (∀ e, ServerDataModel.get predicate data = Some e →
          ServerDataModel.get predicate (ServerDataModel.insert entryData data)
          = Some e)
  ∧ (ServerDataModel.get predicate data = None →
     ServerDataModel.get predicate (ServerDataModel.insert entryData data)
     = if predicate entryData then Some entryData else None).
Proof.
  unfold ServerDataModel.getMany, ServerDataModel.get, ServerDataModel.insert,
    ServerDataModel.init.
  rewrite !list_fmap_id, !option_fmap_id.
  split; [|split; [|split]].
  - rewrite List.filter_app. cbn. by destruct (predicate entryData).
  - apply find_head_filter.
  - intros e He. by rewrite find_app_first, He.
  - intros Hnone. rewrite find_app_first, Hnone. cbn.
    by destruct (predicate entryData).
Qed.

End StoreFacts.

(** ** Uploading and deleting shared entries *)

Section StoreHandlerFacts.

Variable getLocationPower : option (list ApplianceModel.t) → number.

Let rankedEntries := LeaderboardController.rankedEntries getLocationPower.
Let getEntries := LeaderboardController.getEntries getLocationPower.

Lemma rankedEntries_length (all : list LeaderboardItemModel.t)
    (appTypeFilter powerSourceFilter regionFilter sortOrder : string) :
  length (rankedEntries all appTypeFilter powerSourceFilter regionFilter sortOrder)
  = length (List.filter
              (LeaderboardController.keepEntry regionFilter appTypeFilter) all).
Proof.
  unfold rankedEntries, LeaderboardController.rankedEntries.
  by rewrite Array_sort_Permutation, length_fmap.
Qed.

Lemma getEntries_totalEntries (all : list LeaderboardItemModel.t)
    (query : LeaderboardController.Query) (body : LeaderboardController.Page) :
  getEntries (Some all) query = LeaderboardController.Ok200 body →
  LeaderboardController.totalEntries body
  = Z.of_nat
      (length
         (List.filter
            (LeaderboardController.keepEntry
               (orString (LeaderboardController.region query) "ALL")
               (orString (LeaderboardController.appType query) "ANY"))
            all)).
Proof.
  intros Hbody. apply getEntries_Ok200 in Hbody as (Hn & _).
  rewrite Hn. f_equal. apply rankedEntries_length.
Qed.

(** X4.  An upload without a body is refused with status 400 and leaves the
    store as it is.  An upload with a body is answered with status 200 and
    puts the body at the end of the store, without looking for a stored
    entry of the same identifiers: uploading a body twice stores it twice.
    After the upload a query counts one entry more than before when the
    uploaded entry passes the filters of the query, and as many as before
    when it does not. *)
Theorem upload_then_query (data : list LeaderboardItemModel.t)
    (entry : LeaderboardItemModel.t) (query : LeaderboardController.Query) :
  LeaderboardStore.uploadNewEntry None data
  = (data, {| LeaderboardStore.status := 400;
              LeaderboardStore.message := "Failed to upload entry." |})
  ∧ LeaderboardStore.uploadNewEntry (Some entry) data
    = (data ++ [entry],
       {| LeaderboardStore.status := 200;
          LeaderboardStore.message := "Entry uploaded successfully." |})
  ∧ (LeaderboardStore.uploadNewEntry (Some entry)
       (LeaderboardStore.uploadNewEntry (Some entry) data).1).1
    = data ++ [entry; entry]
  ∧ (∀ before after,
       getEntries (Some data) query = LeaderboardController.Ok200 before →
       getEntries
         (Some (LeaderboardStore.uploadNewEntry (Some entry) data).1) query
       = LeaderboardController.Ok200 after →
       LeaderboardController.totalEntries after
       = (LeaderboardController.totalEntries before
          + if LeaderboardController.keepEntry
                 (orString (LeaderboardController.region query) "ALL")
                 (orString (LeaderboardController.appType query) "ANY") entry
            then 1 else 0)%Z).
Proof.
  split; [done|]. split; [done|]. split.
  { cbn. unfold ServerDataModel.insert, ServerDataModel.init.
    by rewrite <-app_assoc. }
  intros before after Hbefore Hafter.
  apply getEntries_totalEntries in Hbefore, Hafter. rewrite Hbefore, Hafter.
  cbn [LeaderboardStore.uploadNewEntry fst].
  unfold ServerDataModel.insert, ServerDataModel.init.
  rewrite List.filter_app, length_app. cbn [List.filter].
  destruct (LeaderboardController.keepEntry _ _ entry); cbn; lia.
Qed.

Lemma deleteEntry_given (id : string) (data : list LeaderboardItemModel.t) :
  id ≠ "" →
  LeaderboardStore.deleteEntry (Some (Some id)) data
  = ((ServerDataModel.delete
        (λ e, bool_decide (LeaderboardItemModel.privateId e = id)) data).1,
     LeaderboardStore.sendResponse
       (bool_decide
          (0 < (ServerDataModel.delete
                  (λ e, bool_decide (LeaderboardItemModel.privateId e = id))
                  data).2)%Z)
       "Entry deleted successfully." "Failed to delete entry (not found?).").
Proof.
  intros Hid. unfold LeaderboardStore.deleteEntry.
  rewrite decide_False by done.
  by destruct (ServerDataModel.delete _ data).
Qed.

Lemma filter_everything {A} (f : A → bool) (l : list A) :
  Forall (λ x, f x = true) l → List.filter f l = l.
Proof.
  induction 1 as [|x l Hx _ IH]; [done|]. cbn. by rewrite Hx, IH.
Qed.

Lemma length_filter_pos {A} (p : A → bool) (l : list A) :
  (0 < length (List.filter p l))%nat ↔ ∃ x, x ∈ l ∧ p x = true.
Proof.
  induction l as [|x l IH]; cbn.
  - split; [lia|]. intros (x & Hx & _). by apply elem_of_nil in Hx.
  - destruct (p x) eqn:Hx; cbn.
    + split; [|lia]. intros _. exists x. split; [by left|done].
    + rewrite IH. split.
      * intros (y & Hy & Hpy). exists y. split; [by right|done].
      * intros (y & Hy & Hpy). apply elem_of_cons in Hy as [->|Hy];
          [congruence|]. by exists y.
Qed.

(** X5.  A delete request with an identifier is answered with status 200
    exactly when some stored entry has that [privateId], and with status
    400 otherwise.  It removes every entry of that [privateId] and keeps the
    others in their order, so no query on the store it leaves ranks an
    entry of that [privateId], and the same request made again is answered
    with status 400.  A request without body or without identifier is
    answered with status 400 and leaves the store as it is. *)
Theorem deleteEntry_then_query (id : string) (data : list LeaderboardItemModel.t) :
  id ≠ "" →
  (LeaderboardStore.status (LeaderboardStore.deleteEntry (Some (Some id)) data).2
   = 200%Z
   ↔ ∃ e, e ∈ data ∧ LeaderboardItemModel.privateId e = id)
  ∧ (LeaderboardStore.status
       (LeaderboardStore.deleteEntry (Some (Some id)) data).2 ≠ 200%Z →
     LeaderboardStore.deleteEntry (Some (Some id)) data
     = (data, {| LeaderboardStore.status := 400;
                 LeaderboardStore.message
                 := "Failed to delete entry (not found?)." |}))
  ∧ (∀ e, e ∈ (LeaderboardStore.deleteEntry (Some (Some id)) data).1
          ↔ e ∈ data ∧ LeaderboardItemModel.privateId e ≠ id)
  ∧ sublist (LeaderboardStore.deleteEntry (Some (Some id)) data).1 data
  ∧ (∀ appTypeFilter powerSourceFilter regionFilter sortOrder,
       Forall (λ s, LeaderboardItemModel.privateId (LeaderboardController.entry s)
                    ≠ id)
              (rankedEntries
                 (LeaderboardStore.deleteEntry (Some (Some id)) data).1
                 appTypeFilter powerSourceFilter regionFilter sortOrder))
  ∧ LeaderboardStore.status
      (LeaderboardStore.deleteEntry (Some (Some id))
         (LeaderboardStore.deleteEntry (Some (Some id)) data).1).2
    = 400%Z
  ∧ (∀ body, body = None ∨ body = Some None ∨ body = Some (Some "") →
       LeaderboardStore.deleteEntry body data
       = (data, {| LeaderboardStore.status := 400;
                   LeaderboardStore.message
                   := "Missing entry ID for deletion." |})).
Proof.
  intros Hid.
  pose proof (delete_count
                (λ e, bool_decide (LeaderboardItemModel.privateId e = id)) data)
    as Hcount.
  pose proof (delete_elem_of
                (λ e, bool_decide (LeaderboardItemModel.privateId e = id)) data)
    as Hleft.
  pose proof (delete_again
                (λ e, bool_decide (LeaderboardItemModel.privateId e = id)) data)
    as Hagain.
  assert (∀ e, e ∈ (LeaderboardStore.deleteEntry (Some (Some id)) data).1
               ↔ e ∈ data ∧ LeaderboardItemModel.privateId e ≠ id) as Hmem.
  { intros e. rewrite deleteEntry_given by done. cbn [fst].
    rewrite Hleft. by rewrite bool_decide_eq_false. }
  assert ((0 < (ServerDataModel.delete
                  (λ e, bool_decide (LeaderboardItemModel.privateId e = id))
                  data).2)%Z
          ↔ ∃ e, e ∈ data ∧ LeaderboardItemModel.privateId e = id) as Hpos.
  { rewrite Hcount.
    pose proof (length_filter_pos
                  (λ e, bool_decide (LeaderboardItemModel.privateId e = id))
                  data) as Hlen.
    split.
    - intros Hcnt. destruct (proj1 Hlen ltac:(lia)) as (e & He & Hp).
      exists e. split; [done|]. by apply bool_decide_eq_true in Hp.
    - intros (e & He & Hp).
      assert (0 < length (List.filter
                (λ e, bool_decide (LeaderboardItemModel.privateId e = id))
                data))%nat; [|lia].
      apply Hlen. exists e. split; [done|]. by apply bool_decide_eq_true. }
  split; [|split; [|split; [|split; [|split; [|split]]]]].
  - rewrite deleteEntry_given by done. cbn [snd]. rewrite <-Hpos.
    unfold LeaderboardStore.sendResponse. cbn. case_bool_decide; split; done.
  - rewrite deleteEntry_given by done. cbn [snd].
    unfold LeaderboardStore.sendResponse. cbn. case_bool_decide as Hd; [done|].
    intros _. f_equal.
    unfold ServerDataModel.delete. cbn [fst].
    apply filter_everything. apply Forall_forall. intros e He.
    apply negb_true_iff, bool_decide_eq_false. intros Heq.
    apply Hd, Hpos. by exists e.
  - exact Hmem.
  - rewrite deleteEntry_given by done. unfold ServerDataModel.delete.
    cbn [fst]. apply filter_sublist.
  - intros appTypeFilter powerSourceFilter regionFilter sortOrder.
    unfold rankedEntries, LeaderboardController.rankedEntries.
    rewrite Array_sort_Permutation, Forall_fmap. apply Forall_forall.
    intros e He. apply list_elem_of_In, filter_In in He as [He _].
    apply list_elem_of_In, Hmem in He as [_ Hne]. exact Hne.
  - rewrite (deleteEntry_given id data) by done. cbn [fst].
    rewrite deleteEntry_given by done. cbn [snd]. rewrite Hagain. done.
  - intros body [->|[->| ->]]; done.
Qed.

End StoreHandlerFacts.

(** ** The rendered leaderboard and the pages of a query *)

Lemma keepEntry_iff (regionFilter appTypeFilter : string)
    (e : LeaderboardItemModel.t) :
  LeaderboardController.keepEntry regionFilter appTypeFilter e = true
  ↔ (regionFilter = "ALL" ∨ LeaderboardItemModel.region e = Some regionFilter)
    ∧ (appTypeFilter = "ANY" ∨ carries appTypeFilter e).
Proof.
  split.
  - intros Hkeep. apply keepEntry_true in Hkeep as [Hregion Htype]. split.
    + destruct (decide (regionFilter = "ALL")); [by left|right; auto].
    + destruct (decide (appTypeFilter = "ANY")); [by left|right; auto].
  - intros [Hregion Htype]. unfold LeaderboardController.keepEntry.
    rewrite decide_False by (intros [? ?]; by destruct Hregion).
    case_decide as Hany; [|done].
    destruct Htype as [?|(apps & app & Happs & Hin & Hname)]; [done|].
    rewrite Happs. apply existsb_exists. exists app.
    split; [by apply list_elem_of_In|]. by apply bool_decide_eq_true.
Qed.

Lemma take_drop_length {A} (l : list A) (k : nat) :
  length (take 16 (drop k l)) = (16 `min` (length l - k))%nat.
Proof. by rewrite length_take, length_drop. Qed.

Section PageMoreFacts.

Variable getLocationPower : option (list ApplianceModel.t) → number.

Let rankedEntries := LeaderboardController.rankedEntries getLocationPower.
Let getEntries := LeaderboardController.getEntries getLocationPower.
Let loadLeaderboard := LeaderboardView.loadLeaderboard getLocationPower.

Lemma rankedEntries_unfiltered (data : list LeaderboardItemModel.t)
    (powerSourceFilter sortOrder : string) :
  rankedEntries data "ANY" powerSourceFilter "ALL" sortOrder
  = Array_sort (λ a b, LeaderboardController.compareEntries
                         (LeaderboardController.values a)
                         (LeaderboardController.values b)
                         sortOrder powerSourceFilter)
               (LeaderboardController.score getLocationPower powerSourceFilter
                  <$> data).
Proof.
  unfold rankedEntries, LeaderboardController.rankedEntries.
  rewrite filter_everything; [done|].
  apply Forall_forall. intros e _. apply keepEntry_iff. split; by left.
Qed.

(** X6.  The rendered leaderboard shows the entries the query for the
    same page without filters answers: the whole store scored under
    ["GREEN"], highest first, cut to the same page, each location being a
    stored entry with its score (not its sanitized projection).  Its
    [totalPages] is [ceil (n / 16)] for the [n] stored entries, so [0] for
    an empty store, where the query says [1]; its [currentPage] is the one
    of the query, [1] for an empty store. *)
Theorem loadLeaderboard_agrees_with_query (data : list LeaderboardItemModel.t)
    (page : option Z) :
  LeaderboardView.totalPages (loadLeaderboard data page)
  = ((Z.of_nat (length data) + 15) / 16)%Z
  ∧ (1 ≤ LeaderboardView.currentPage (loadLeaderboard data page)
     ≤ Z.max 1 (LeaderboardView.totalPages (loadLeaderboard data page)))%Z
  ∧ (data = [] →
     LeaderboardView.totalPages (loadLeaderboard data page) = 0%Z
     ∧ LeaderboardView.currentPage (loadLeaderboard data page) = 1%Z
     ∧ LeaderboardView.locations (loadLeaderboard data page) = [])
  ∧ Forall (λ s, LeaderboardController.entry s ∈ data
                 ∧ LeaderboardController.values s
                   = LeaderboardController.calculateSortValues
                       getLocationPower (LeaderboardController.entry s) "GREEN")
           (LeaderboardView.locations (loadLeaderboard data page))
  ∧ (∀ body,
       getEntries (Some data)
         (LeaderboardController.Build_Query page None None None None)
       = LeaderboardController.Ok200 body →
       LeaderboardController.currentPage body
       = LeaderboardView.currentPage (loadLeaderboard data page)
       ∧ LeaderboardController.totalEntries body = Z.of_nat (length data)
       ∧ LeaderboardController.totalPages body
         = Z.max 1 (LeaderboardView.totalPages (loadLeaderboard data page))
       ∧ mapM LeaderboardController.sanitize
              (LeaderboardView.locations (loadLeaderboard data page))
         = Some (LeaderboardController.entries body)).
Proof.
  pose proof (rankedEntries_unfiltered data "GREEN" "HIGH") as Hranked.
  assert (length (rankedEntries data "ANY" "GREEN" "ALL" "HIGH") = length data)
    as Hlen.
  { rewrite Hranked. by rewrite Array_sort_Permutation, length_fmap. }
  unfold loadLeaderboard, LeaderboardView.loadLeaderboard. cbv zeta.
  rewrite <-Hranked, Hlen.
  cbn [LeaderboardView.totalPages LeaderboardView.currentPage
       LeaderboardView.locations].
  change LeaderboardController.PAGE_SIZE with 16%Z.
  rewrite Math_ceil_div_16.
  pose proof (Z.div_mod (Z.of_nat (length data) + 15) 16 ltac:(lia)) as Hdiv.
  pose proof (Z.mod_pos_bound (Z.of_nat (length data) + 15) 16 ltac:(lia)) as Hmod.
  split; [done|]. split; [case_decide; lia|]. split; [|split].
  - intros ->. cbn [length] in *. split; [done|]. split; [by case_decide; lia|].
    apply nil_length_inv in Hlen. rewrite Hlen.
    unfold Array_slice. by rewrite drop_nil, take_nil.
  - apply Forall_forall. intros s Hs. unfold Array_slice in Hs.
    apply elem_of_take_drop in Hs. rewrite Hranked in Hs.
    rewrite Array_sort_Permutation in Hs.
    apply list_elem_of_fmap in Hs as (e & -> & He). by split.
  - intros body Hbody.
    apply getEntries_Ok200 in Hbody as (Hn & Hpages & Hpage & Hitems).
    cbn [LeaderboardController.page LeaderboardController.appType
         LeaderboardController.powerSource LeaderboardController.region
         LeaderboardController.sortOrder orString] in Hn, Hpages, Hpage, Hitems.
    fold (rankedEntries data "ANY" "GREEN" "ALL" "HIGH") in Hn, Hpages, Hpage, Hitems.
    rewrite Hlen in Hn, Hpages, Hpage.
    assert (LeaderboardController.totalPagesOf (Z.of_nat (length data))
            = if decide (((Z.of_nat (length data) + 15) / 16)%Z = 0%Z)
              then 1%Z else ((Z.of_nat (length data) + 15) / 16)%Z) as Htp.
    { unfold LeaderboardController.totalPagesOf.
      change LeaderboardController.PAGE_SIZE with 16%Z.
      by rewrite Math_ceil_div_16. }
    rewrite Htp in Hpages, Hpage.
    unfold LeaderboardController.safePageOf in Hpage.
    split; [done|]. split; [done|]. split; [rewrite Hpages; case_decide; lia|].
    rewrite <-Hitems, <-Hpage. unfold Array_slice. f_equal.
    f_equal; [|f_equal]; f_equal; lia.
Qed.

(** X7.  An answered page holds [min 16 (n - 16 * (currentPage - 1))] of
    the [n] entries that pass the filters: sixteen on every page before the
    last, the rest on the last, and at least one entry whenever any entry
    passes the filters, whatever page was asked for. *)
Theorem getEntries_page_size (all : list LeaderboardItemModel.t)
    (query : LeaderboardController.Query) (body : LeaderboardController.Page) :
  getEntries (Some all) query = LeaderboardController.Ok200 body →
  Z.of_nat (length (LeaderboardController.entries body))
  = Z.min 16 (LeaderboardController.totalEntries body
              - 16 * (LeaderboardController.currentPage body - 1))
  ∧ ((LeaderboardController.currentPage body
      < LeaderboardController.totalPages body)%Z →
     length (LeaderboardController.entries body) = 16%nat)
  ∧ ((0 < LeaderboardController.totalEntries body)%Z →
     LeaderboardController.entries body ≠ []).
Proof.
  intros Hbody.
  apply getEntries_Ok200 in Hbody as (Hn & Hpages & Hpage & Hitems).
  cbv zeta in Hn, Hpages, Hpage, Hitems.
  apply mapM_Some, Forall2_length in Hitems.
  rewrite take_drop_length in Hitems.
  rewrite <-Hn in Hpages, Hpage.
  destruct (totalPagesOf_ceil (LeaderboardController.totalEntries body)
              ltac:(rewrite Hn; lia)) as [Hmax Hceil].
  rewrite <-Hpages in Hmax, Hceil, Hpage.
  assert (1 ≤ LeaderboardController.totalPages body)%Z as Hone by lia.
  destruct (safePageOf_clamp
              (LeaderboardController.pageOf (LeaderboardController.page query))
              _ Hone) as (Hrange & _).
  rewrite <-Hpage in Hrange.
  assert (Z.of_nat (length (LeaderboardController.entries body))
          = Z.min 16 (LeaderboardController.totalEntries body
                      - 16 * (LeaderboardController.currentPage body - 1)))
    as Hsize by lia.
  split; [exact Hsize|]. split.
  - intros Hlast. lia.
  - intros Hpos Hnil. rewrite Hnil in Hsize. cbn in Hsize. lia.
Qed.


(** X9.  A stored entry passes the filters of a query exactly when the
    region filter is ["ALL"] or is the region code of the entry, and the
    appliance-type filter is ["ANY"] or names the type of one of the
    entry's appliances.  [totalEntries] is the number of stored entries
    that pass, never more than the store holds, and all of them when the
    request has no region and no appliance-type filter. *)
Theorem getEntries_counts_matching (all : list LeaderboardItemModel.t)
    (query : LeaderboardController.Query) (body : LeaderboardController.Page) :
  getEntries (Some all) query = LeaderboardController.Ok200 body →
  let regionFilter := orString (LeaderboardController.region query) "ALL" in
  let appTypeFilter := orString (LeaderboardController.appType query) "ANY" in
  (∀ e, LeaderboardController.keepEntry regionFilter appTypeFilter e = true
        ↔ (regionFilter = "ALL"
           ∨ LeaderboardItemModel.region e = Some regionFilter)
          ∧ (appTypeFilter = "ANY" ∨ carries appTypeFilter e))
  ∧ LeaderboardController.totalEntries body
    = Z.of_nat
        (length (List.filter
                   (LeaderboardController.keepEntry regionFilter appTypeFilter)
                   all))
  ∧ (LeaderboardController.totalEntries body ≤ Z.of_nat (length all))%Z
  ∧ (absent (LeaderboardController.region query) →
     absent (LeaderboardController.appType query) →
     LeaderboardController.totalEntries body = Z.of_nat (length all)).
Proof.
  intros Hbody regionFilter appTypeFilter.
  pose proof (getEntries_totalEntries _ all query body Hbody) as Hn.
  fold regionFilter appTypeFilter in Hn.
  split; [intros e; apply keepEntry_iff|]. split; [exact Hn|]. split.
  - rewrite Hn.
    pose proof (filter_split_length
                  (LeaderboardController.keepEntry regionFilter appTypeFilter)
                  all). lia.
  - intros Hregion Htype. rewrite Hn. unfold regionFilter, appTypeFilter.
    rewrite !orString_absent by done.
    rewrite filter_everything; [done|].
    apply Forall_forall. intros e _. apply keepEntry_iff. split; by left.
Qed.

End PageMoreFacts.

(** ** The comparator and the scores, once more *)

Lemma Qc_minus_swap_0 (x y : number) : x - y = 0 ↔ y - x = 0.
Proof. rewrite !Qc_minus_eq_0. split; congruence. Qed.

Lemma lex_difference_opp (x y u v : number) (tie : bool) :
  (if decide (x - y ≠ 0) then x - y else if tie then u - v else 0)
  = - (if decide (y - x ≠ 0) then y - x else if tie then v - u else 0).
Proof.
  destruct (decide (x - y ≠ 0)) as [Hd|Hd].
  - rewrite decide_True by by rewrite <-Qc_minus_swap_0. ring.
  - rewrite decide_False by (intros Hn; apply Hd; intros H0; apply Hn;
                             by apply Qc_minus_swap_0).
    destruct tie; ring.
Qed.

Lemma compareEntries_lex (a b : LeaderboardController.SortValues)
    (sortOrder powerSourceFilter : string) :
  LeaderboardController.compareEntries a b sortOrder powerSourceFilter
  = if decide (sortOrder = "HIGH") then
      (if decide (LeaderboardController.sortValue b
                  - LeaderboardController.sortValue a ≠ 0)
       then LeaderboardController.sortValue b - LeaderboardController.sortValue a
       else if bool_decide (powerSourceFilter ≠ "ANY")
            then LeaderboardController.totalPower b
                 - LeaderboardController.totalPower a
            else 0)
    else
      (if decide (LeaderboardController.sortValue a
                  - LeaderboardController.sortValue b ≠ 0)
       then LeaderboardController.sortValue a - LeaderboardController.sortValue b
       else if bool_decide (powerSourceFilter ≠ "ANY")
            then LeaderboardController.totalPower a
                 - LeaderboardController.totalPower b
            else 0).
Proof.
  unfold LeaderboardController.compareEntries.
  destruct (decide (sortOrder = "HIGH")); cbv zeta;
    destruct (decide (powerSourceFilter ≠ "ANY"));
    by rewrite ?bool_decide_eq_true_2, ?bool_decide_eq_false_2 by done.
Qed.

(** X10.  The comparator is consistent, as a sort needs it: comparing [b]
    with [a] answers the opposite of comparing [a] with [b], and an entry
    compares [0] with itself.  The two directions mirror each other:
    ["HIGH"] on [a] and [b] answers what ["LOW"] answers on [b] and [a],
    and any direction other than ["HIGH"] answers the opposite of
    ["HIGH"]. *)
Theorem compareEntries_antisymmetric (a b : LeaderboardController.SortValues)
    (sortOrder powerSourceFilter : string) :
  LeaderboardController.compareEntries a b sortOrder powerSourceFilter
  = - LeaderboardController.compareEntries b a sortOrder powerSourceFilter
  ∧ LeaderboardController.compareEntries a a sortOrder powerSourceFilter = 0
  ∧ LeaderboardController.compareEntries a b "HIGH" powerSourceFilter
    = LeaderboardController.compareEntries b a "LOW" powerSourceFilter
  ∧ (sortOrder ≠ "HIGH" →
     LeaderboardController.compareEntries a b sortOrder powerSourceFilter
     = - LeaderboardController.compareEntries a b "HIGH" powerSourceFilter).
Proof.
  assert (LeaderboardController.compareEntries a b sortOrder powerSourceFilter
          = - LeaderboardController.compareEntries b a sortOrder
                powerSourceFilter) as Hopp.
  { rewrite !compareEntries_lex.
    destruct (decide (sortOrder = "HIGH")); apply lex_difference_opp. }
  split; [exact Hopp|]. split; [|split].
  - rewrite compareEntries_lex.
    assert (LeaderboardController.sortValue a - LeaderboardController.sortValue a
            = 0) as Hz by ring.
    rewrite Hz.
    assert (LeaderboardController.totalPower a - LeaderboardController.totalPower a
            = 0) as Hz' by ring.
    rewrite Hz'. rewrite (decide_False (P := 0 ≠ 0)) by tauto.
    by destruct (decide (sortOrder = "HIGH")), (bool_decide _).
  - by rewrite !compareEntries_lex.
  - intros Horder. rewrite !compareEntries_lex.
    rewrite (decide_False (P := sortOrder = "HIGH")) by done.
    rewrite (decide_True (P := "HIGH" = "HIGH")) by done.
    apply lex_difference_opp.
Qed.


Section ScoreMoreFacts.

Variable getLocationPower : option (list ApplianceModel.t) → number.

Let calculateSortValues :=
  LeaderboardController.calculateSortValues getLocationPower.


End ScoreMoreFacts.

(** ** The browser's calculator and the appliance form *)

Section FormFacts.

Variable applianceTypes : list ApplianceTypeModel.t.

Let power := UtilsController.getAppliancePower applianceTypes.
Let locationPower := UtilsController.getLocationPower applianceTypes.

Lemma getLocationPower_sumQc (apps : list ApplianceModel.t) :
  locationPower (Some apps) = sumQc ((λ app, power (Some app)) <$> apps).
Proof.
  unfold locationPower, UtilsController.getLocationPower.
  rewrite (foldl_add_sumQc (λ app, power (Some app))). by rewrite Qcplus_0_l.
Qed.



Lemma findType_name (n : string) (ty : ApplianceTypeModel.t) :
  UtilsController.findType applianceTypes n = Some ty →
  ApplianceTypeModel.name ty = n.
Proof.
  unfold UtilsController.findType. intros Hfind.
  apply find_some in Hfind as [_ Hn]. by apply bool_decide_eq_true in Hn.
Qed.

Lemma validateAppliance_None (typeName : string) (usage quantity : JsVal) :
  LocationEditController.validateAppliance applianceTypes typeName usage quantity
  = None →
  ∃ ty u q,
    UtilsController.findType applianceTypes typeName = Some ty
    ∧ Number usage = Some u ∧ 0 ≤ u
    ∧ Number quantity = Some q ∧ 0 < q.
Proof.
  unfold LocationEditController.validateAppliance.
  destruct (UtilsController.findType applianceTypes typeName) as [ty|];
    [|by rewrite decide_True].
  rewrite decide_False by done.
  destruct (Number usage) as [u|]; [|done]. cbn.
  case_bool_decide as Hu; [|done]. cbn.
  destruct (truthy quantity); [|done]. cbn.
  destruct (Number quantity) as [q|]; [|done].
  case_bool_decide as Hq; [|done]. intros _. by exists ty, u, q.
Qed.

(** X13.  Adding an appliance either alerts the message of
    [validateAppliance] and leaves the appliances alone (the second alert,
    for a type not found, never comes), or appends one appliance of a
    catalog type with usage [u >= 0] and quantity [q > 0].  For a type of
    non-empty name the location power then grows by exactly
    [watts * u * q], and the power of the new appliance is the one of the
    clamping formula. *)
Theorem addApppliance_adds_power (typeName : string) (usage quantity : JsVal)
    (appliances : list ApplianceModel.t) :
  (∀ message,
     LocationEditController.addApppliance applianceTypes typeName usage
       quantity appliances = inl message →
     LocationEditController.validateAppliance applianceTypes typeName usage
       quantity = Some message)
  ∧ (∀ appliances',
       LocationEditController.addApppliance applianceTypes typeName usage
         quantity appliances = inr appliances' →
       ∃ ty u q,
         UtilsController.findType applianceTypes typeName = Some ty
         ∧ Number usage = Some u ∧ 0 ≤ u
         ∧ Number quantity = Some q ∧ 0 < q
         ∧ appliances'
           = appliances
             ++ [LocationEditController.newAppliance (Some ty) usage quantity]
         ∧ (typeName ≠ "" →
            locationPower (Some appliances')
            = locationPower (Some appliances)
              + ApplianceTypeModel.watts ty * u * q
            ∧ power (Some (LocationEditController.newAppliance (Some ty)
                             usage quantity))
              = UtilsController.specAppliancePower applianceTypes
                  (Some (LocationEditController.newAppliance (Some ty)
                           usage quantity)))).
Proof.
  unfold LocationEditController.addApppliance. split.
  - intros message.
    destruct (LocationEditController.validateAppliance _ _ _ _) as [msg|] eqn:Hv.
    + by intros [= ->].
    + apply validateAppliance_None in Hv as (ty & u & q & Hty & _).
      by rewrite Hty.
  - intros appliances'.
    destruct (LocationEditController.validateAppliance _ _ _ _) as [msg|] eqn:Hv;
      [done|].
    apply validateAppliance_None in Hv as (ty & u & q & Hty & Hu & Hu0 & Hq & Hq0).
    rewrite Hty. intros [= <-]. exists ty, u, q.
    repeat (split; [done|]). intros Hname.
    pose proof (findType_name _ _ Hty) as Hn.
    assert (q ≠ 0) as Hqne.
    { intros ->. by apply (irreflexivity Qclt) in Hq0. }
    assert (power (Some (LocationEditController.newAppliance (Some ty)
                           usage quantity))
            = ApplianceTypeModel.watts ty * u * q) as Hpower.
    { unfold power, UtilsController.getAppliancePower,
        LocationEditController.newAppliance.
      cbn [ApplianceModel.type ApplianceModel.hours ApplianceModel.quantity].
      rewrite Hn, decide_False, Hty by done. rewrite Hu, Hq. cbn [Number].
      rewrite !orZero_default. cbn [default from_option id orOne].
      by rewrite (decide_False (P := q = 0)) by done. }
    split.
    + rewrite !getLocationPower_sumQc, fmap_app, sumQc_app.
      cbn [fmap list_fmap]. cbv [sumQc]. cbn [foldr]. fold power.
      rewrite Hpower. ring.
    + rewrite Hpower. unfold UtilsController.specAppliancePower,
        LocationEditController.newAppliance, UtilsController.clamp0.
      cbn [ApplianceModel.type ApplianceModel.hours ApplianceModel.quantity].
      rewrite Hn, Hty, Hu, Hq. cbn [Number]. rewrite !orZero_default.
      cbn [default from_option id orOne].
      rewrite (decide_False (P := q = 0)) by done.
      rewrite (decide_True (P := 0 ≤ u)) by done.
      by rewrite (decide_True (P := 0 ≤ q)) by by apply Qclt_le_weak.
Qed.

End FormFacts.

(** ** The statistics aggregation, once more *)











Section StatisticsMoreFacts.

Variable getLocationPower : option (list ApplianceModel.t) → number.
Variable getAppliancePower : option ApplianceModel.t → number.

Let addEntry :=
  StatisticsController.addEntry getLocationPower getAppliancePower.
Let aggregate :=
  StatisticsController.aggregate getLocationPower getAppliancePower.










End StatisticsMoreFacts.

(** ** The slices of the pie chart *)

Section PieChartFacts.

Variable powerName : number → string.



End PieChartFacts.

(** ** The bars of the bar chart *)



(** ** The further properties on sample records *)

(** [update_replaces_first] on the sample store: the entry of Hobart is
    replaced, the others stay. *)
Lemma update_replaces_first_witness :
  ServerDataModel.update (StoreSamples.hasPrivateId "secret-b")
    StoreSamples.heaterInAdelaide Samples.store
  = ([Samples.lampsInSydney; StoreSamples.heaterInAdelaide;
      Samples.computerInAtlantis], true).
Proof.
  destruct (update_replaces_first (StoreSamples.hasPrivateId "secret-b")
              StoreSamples.heaterInAdelaide Samples.store) as (_ & _ & _ & Hfirst).
  apply (Hfirst [Samples.lampsInSydney] Samples.heaterInHobart
           [Samples.computerInAtlantis]).
  - reflexivity.
  - constructor; [reflexivity | constructor].
  - reflexivity.
Defined.

(** [insert_then_get] on the sample store: an inserted entry is found by its
    identifier when no stored entry had it. *)
Lemma insert_then_get_witness :
  ServerDataModel.get (StoreSamples.hasPrivateId "secret-d") Samples.store = None
  ∧ ServerDataModel.get (StoreSamples.hasPrivateId "secret-d")
      (ServerDataModel.insert StoreSamples.heaterInAdelaide Samples.store)
    = Some StoreSamples.heaterInAdelaide.
Proof.
  split; [reflexivity|].
  destruct (insert_then_get (StoreSamples.hasPrivateId "secret-d")
              StoreSamples.heaterInAdelaide Samples.store) as (_ & _ & _ & Hnew).
  exact (Hnew eq_refl).
Defined.

Lemma uploadedPage_answered :
  LeaderboardController.getEntries Samples.locationPower
    (Some StoreSamples.uploaded) Samples.plainQuery
  = LeaderboardController.Ok200 StoreSamples.uploadedPage.
Proof. vm_compute. reflexivity. Defined.

(** [upload_then_query] on the sample store: the plain request counts one
    entry more after the upload. *)
Lemma upload_then_query_witness :
  LeaderboardController.totalEntries StoreSamples.uploadedPage
  = (LeaderboardController.totalEntries Samples.plainPage + 1)%Z.
Proof.
  destruct (upload_then_query Samples.locationPower Samples.store
              StoreSamples.heaterInAdelaide Samples.plainQuery)
    as (_ & _ & _ & Hcount).
  exact (Hcount Samples.plainPage StoreSamples.uploadedPage plainPage_answered
           uploadedPage_answered).
Defined.

(** [deleteEntry_then_query] on the sample store: the entry of Hobart is
    deleted by its private identifier. *)
Lemma deleteEntry_then_query_witness :
  "secret-b" ≠ ""
  ∧ LeaderboardStore.status
      (LeaderboardStore.deleteEntry (Some (Some "secret-b")) Samples.store).2
    = 200%Z.
Proof.
  assert ("secret-b" ≠ "") as Hid by discriminate.
  split; [exact Hid|].
  destruct (deleteEntry_then_query Samples.locationPower "secret-b"
              Samples.store Hid) as (Hstatus & _).
  apply Hstatus. exists Samples.heaterInHobart.
  split; [right; left | reflexivity].
Defined.

(** [loadLeaderboard_agrees_with_query] on the sample store: the rendered
    page and the answered page are the same page. *)
Lemma loadLeaderboard_agrees_with_query_witness :
  LeaderboardController.currentPage Samples.plainPage
  = LeaderboardView.currentPage
      (LeaderboardView.loadLeaderboard Samples.locationPower Samples.store
         (Some 1%Z))
  ∧ mapM LeaderboardController.sanitize
         (LeaderboardView.locations
            (LeaderboardView.loadLeaderboard Samples.locationPower
               Samples.store (Some 1%Z)))
    = Some (LeaderboardController.entries Samples.plainPage).
Proof.
  destruct (loadLeaderboard_agrees_with_query Samples.locationPower
              Samples.store (Some 1%Z)) as (_ & _ & _ & _ & Hquery).
  destruct (Hquery Samples.plainPage plainPage_answered)
    as (Hpage & _ & _ & Hshown).
  split; [exact Hpage | exact Hshown].
Defined.

(** [getEntries_page_size] on the page of the sample store. *)
Lemma getEntries_page_size_witness :
  (0 < LeaderboardController.totalEntries Samples.plainPage)%Z
  ∧ LeaderboardController.entries Samples.plainPage ≠ [].
Proof.
  assert (0 < LeaderboardController.totalEntries Samples.plainPage)%Z as Hsome
    by reflexivity.
  split; [exact Hsome|].
  destruct (getEntries_page_size Samples.locationPower Samples.store
              Samples.plainQuery Samples.plainPage plainPage_answered)
    as (_ & _ & Hfull).
  exact (Hfull Hsome).
Defined.


(** [getEntries_counts_matching] on the sample store: without filters every
    stored entry counts. *)
Lemma getEntries_counts_matching_witness :
  LeaderboardController.totalEntries Samples.plainPage
  = Z.of_nat (length Samples.store).
Proof.
  pose proof (getEntries_counts_matching Samples.locationPower Samples.store
                Samples.plainQuery Samples.plainPage plainPage_answered)
    as Hcount.
  cbv zeta in Hcount. destruct Hcount as (_ & _ & _ & Hall).
  apply Hall; by left.
Defined.

(** [compareEntries_antisymmetric] on two scores: ["LOW"] answers the
    opposite of ["HIGH"]. *)
Lemma compareEntries_antisymmetric_witness :
  LeaderboardController.compareEntries StoreSamples.lower StoreSamples.higher
    "LOW" "GREEN"
  = - LeaderboardController.compareEntries StoreSamples.lower
        StoreSamples.higher "HIGH" "GREEN".
Proof.
  destruct (compareEntries_antisymmetric StoreSamples.lower StoreSamples.higher
              "LOW" "GREEN") as (_ & _ & _ & Hopposite).
  apply Hopposite. discriminate.
Defined.



(** [addApppliance_adds_power] on a heater added to a lamp. *)
Lemma addApppliance_adds_power_witness :
  ∃ ty u q,
    UtilsController.findType ApplianceTypeModel.types "Heater" = Some ty
    ∧ Number (JNumber (numZ 2)) = Some u
    ∧ Number (JNumber (numZ 1)) = Some q
    ∧ UtilsController.getLocationPower ApplianceTypeModel.types
        (Some StoreSamples.withHeater)
      = UtilsController.getLocationPower ApplianceTypeModel.types
          (Some [Samples.twoLamps])
        + ApplianceTypeModel.watts ty * u * q.
Proof.
  destruct (addApppliance_adds_power ApplianceTypeModel.types "Heater"
              (JNumber (numZ 2)) (JNumber (numZ 1)) [Samples.twoLamps])
    as (_ & Hadded).
  destruct (Hadded StoreSamples.withHeater eq_refl)
    as (ty & u & q & Hty & Hu & _ & Hq & _ & _ & Hpower).
  exists ty, u, q. split; [exact Hty|]. split; [exact Hu|].
  split; [exact Hq|]. apply Hpower. discriminate.
Defined.









